(** * ClimateSTANCE: archive-first dual-source snapshot acquisition

    A shallow embedding of [scripts/wayback_fetch.py] and the properties its
    specification states about it.

    The module talks to the network through [requests.get] and waits with
    [time.sleep].  Both are modelled by a history of events: every request and
    every sleep is appended to the history, and what the network answers to a
    request is given by an arbitrary function of the history so far (the
    [server]).  Python exceptions are an explicit outcome of a computation. *)

From Stdlib Require Import String Ascii ZArith List Lia Bool DecimalString.
Import ListNotations.

Set Warnings "-register-all".

Local Open Scope string_scope.
Local Open Scope Z_scope.

(** ** Python values and the built-ins the module uses *)

Module Py.

(** What [Response.json()] can decode to.  A dict is kept as its list of
    items; JSON numbers are taken as integers (the code only ever tests a
    decoded value for truth or calls [.get] on it). *)
Inductive pyval : Type :=
| PyNone
| PyBool (b : bool)
| PyInt (n : Z)
| PyStr (s : string)
| PyList (items : list pyval)
| PyDict (items : list (string * pyval)).

(** A str is a [string], one element per character.  [len(s)]: *)
Definition len (s : string) : Z := Z.of_nat (String.length s).

(** Truth value of a str, of an int and of a decoded value. *)
Definition truthy_str (s : string) : bool :=
  match s with EmptyString => false | String _ _ => true end.

Definition truthy_int (n : Z) : bool := negb (n =? 0).

Definition truthy (v : pyval) : bool :=
  match v with
  | PyNone => false
  | PyBool b => b
  | PyInt n => truthy_int n
  | PyStr s => truthy_str s
  | PyList items => match items with [] => false | _ :: _ => true end
  | PyDict items => match items with [] => false | _ :: _ => true end
  end.

(** [a or b] on decoded values, and [html or ""] on an [Optional[str]]. *)
Definition or_ (a b : pyval) : pyval := if truthy a then a else b.

Definition or_empty (html : option string) : string :=
  match html with
  | Some s => if truthy_str s then s else ""
  | None => ""
  end.

(** [str(n)] for an int. *)
Definition str (n : Z) : string := NilZero.string_of_int (Z.to_int n).

(** [str(code or "")]: the int when it is non-zero, else the empty str. *)
Definition str_or_empty (code : Z) : string :=
  if truthy_int code then str code else "".

Fixpoint zeros (k : nat) : string :=
  match k with O => "" | S k' => String "0" (zeros k') end.

(** [f"{n:0{width}d}"]: sign-aware zero padding. *)
Definition format_0d (width : nat) (n : Z) : string :=
  let digits := str (Z.abs n) in
  if n <? 0
  then "-" ++ zeros (width - 1 - String.length digits) ++ digits
  else zeros (width - String.length digits) ++ digits.

(** Lookup in the items of a dict. *)
Fixpoint lookup (key : string) (items : list (string * pyval)) : option pyval :=
  match items with
  | [] => None
  | (k, v) :: rest => if String.eqb k key then Some v else lookup key rest
  end.

End Py.
Import Py.

(** ** Exceptions, events and computations *)

(** The two exception classes that can arise in the module:
    [requests.RequestException] (with its subclasses [HTTPError] and
    [JSONDecodeError]) is the one the code catches; [.get] on a decoded value
    that is not a dict raises [AttributeError], which it does not. *)
Inductive exn : Type :=
| RequestException (detail : string)
| AttributeError (detail : string).

Inductive outcome (A : Type) : Type :=
| Returns (a : A)
| Raises (e : exn).
Arguments Returns {A} a.
Arguments Raises {A} e.

(** What the process does to the outside world, in order. *)
Inductive event : Type :=
| EvGet (url : pyval) (timeout : Z) (headers : list (string * string))
| EvSleep (millis : Z).

Definition history : Type := list event.
Bind Scope list_scope with history.

(** The part of [requests.Response] the module reads: [r.status_code],
    [r.text], and [r.json()], which is [None] here when the body is not JSON
    (and [r.json()] raises [JSONDecodeError]). *)
Record Response : Type := mkResponse {
  status_code : Z;
  text : string;
  json : option pyval
}.

(** A computation runs from a history and leaves an outcome and the extended
    history. *)
Definition io (A : Type) : Type := history -> outcome A * history.

Definition ret {A} (a : A) : io A := fun h => (Returns a, h).

Definition raise {A} (e : exn) : io A := fun h => (Raises e, h).

Definition bind {A B} (m : io A) (k : A -> io B) : io B :=
  fun h =>
    match m h with
    | (Returns a, h1) => k a h1
    | (Raises e, h1) => (Raises e, h1)
    end.

(** [try: body  except requests.RequestException as e: handler] *)
Definition try_except {A} (body : io A) (handler : exn -> io A) : io A :=
  fun h =>
    match body h with
    | (Raises (RequestException d), h1) => handler (RequestException d) h1
    | other => other
    end.

Notation "x <- m ;; k" := (bind m (fun x => k))
  (at level 61, m at next level, right associativity).
Notation "' pat <- m ;; k" := (bind m (fun x => match x with pat => k end))
  (at level 61, pat pattern, m at next level, right associativity).
Notation "m ;;; k" := (bind m (fun _ => k))
  (at level 61, right associativity).

(** [time.sleep] of the given number of milliseconds. *)
Definition sleep (millis : Z) : io unit :=
  fun h => (Returns tt, (h ++ [EvSleep millis])%list).

(** [value.get(key, default)] on a decoded value. *)
Definition value_get (v : pyval) (key : string) (default : pyval) : io pyval :=
  fun h =>
    match v with
    | PyDict items =>
        (Returns (match lookup key items with Some x => x | None => default end), h)
    | _ => (Raises (AttributeError "object has no attribute 'get'"), h)
    end.

(** Number of requests in a history. *)
Fixpoint requests_in (h : history) : nat :=
  match h with
  | [] => O
  | EvGet _ _ _ :: rest => S (requests_in rest)
  | EvSleep _ :: rest => requests_in rest
  end.

(** A network that plays a script: the k-th request of the process gets the
    k-th entry, a transport failure ([inl]) or a response ([inr]); past the
    end of the script every request fails. *)
Definition scripted (script : list (string + Response)) (h : history) : string + Response :=
  nth (pred (requests_in h)) script (inl "connection refused").

(** A network on which every request fails. *)
Definition unreachable (h : history) : string + Response := inl "connection refused".

(** Pages and payloads to run the module on: a page of [n] characters, the
    payload of the archive service for a page it holds and for one it does not,
    and the responses carrying them. *)
Fixpoint page (n : nat) : string :=
  match n with O => "" | S n' => String "x" (page n') end.

Definition payload_found : pyval :=
  PyDict [("url", PyStr "example.org");
          ("archived_snapshots",
           PyDict [("closest",
                    PyDict [("status", PyStr "200");
                            ("available", PyBool true);
                            ("url", PyStr "http://web.archive.org/web/20190314/http://example.org/");
                            ("timestamp", PyStr "20190314000000")])])].

Definition payload_not_found : pyval :=
  PyDict [("url", PyStr "example.org"); ("archived_snapshots", PyDict [])].

Definition answer (payload : pyval) : string + Response :=
  inr (mkResponse 200 "" (Some payload)).

Definition served (status : Z) (n : nat) : string + Response :=
  inr (mkResponse status (page n) None).

(** ** The module *)

Section WaybackFetch.

(** [urllib.parse.quote] *)
Variable quote : string -> string.

(** What the network answers to the last request of a history: a transport
    failure, which [requests.get] raises as a [RequestException], or a
    response. *)
Variable server : history -> string + Response.

Definition USER_AGENT : string :=
  "ClimateSTANCE/1.1 (Research use; contact: saheerrahman98@gmail.com)".

Definition HEADERS : list (string * string) := [("User-Agent", USER_AGENT)].

Definition MIN_GOOD_LEN : Z := 800.

Definition _mid_month_timestamp (year month : Z) : string :=
  format_0d 4 year ++ format_0d 2 month ++ "15" ++ "120000".

(** [requests.get(url, timeout=timeout, headers=headers)] *)
Definition requests_get (url : pyval) (timeout : Z)
    (headers : list (string * string)) : io Response :=
  fun h =>
    let h1 := (h ++ [EvGet url timeout headers])%list in
    match server h1 with
    | inl detail => (Raises (RequestException detail), h1)
    | inr r => (Returns r, h1)
    end.

(** The loop of [_get]: [tries] iterations are left, [i] is the loop
    variable, [backoff] is in milliseconds.  The module only ever calls [_get]
    with its defaults, for which each delay is a small non-negative number
    that [time.sleep] accepts; the numbered properties of [_get] are stated
    at those defaults. *)
Fixpoint _get_loop (url : pyval) (timeout : Z) (backoff : Z)
    (tries : nat) (i : Z) (last_exc : option exn) : io Response :=
  match tries with
  | O =>
      match last_exc with
      | Some e => raise e
      | None => raise (RequestException "Unknown requests error")
      end
  | S tries' =>
      try_except
        (requests_get url timeout HEADERS)
        (fun e =>
           sleep (backoff * 2 ^ i) ;;;
           _get_loop url timeout backoff tries' (i + 1) (Some e))
  end.

Definition _get (url : pyval) : io Response :=
  _get_loop url 25 750 3 0 None.

(** [r.raise_for_status()] *)
Definition raise_for_status (r : Response) : io unit :=
  if (400 <=? status_code r) && (status_code r <? 600)
  then raise (RequestException "HTTPError")
  else ret tt.

(** [r.json()] *)
Definition json_of (r : Response) : io pyval :=
  match json r with
  | Some payload => ret payload
  | None => raise (RequestException "JSONDecodeError")
  end.

Definition wayback_lookup (url : string) (year month : Z) : io (pyval * pyval) :=
  if negb (truthy_str url) then ret (PyNone, PyNone)
  else
    let ts := _mid_month_timestamp year month in
    let api := "https://archive.org/wayback/available?url=" ++ quote url
               ++ "&timestamp=" ++ ts in
    try_except
      (r <- _get (PyStr api) ;;
       raise_for_status r ;;;
       payload <- json_of r ;;
       snapshots <- value_get payload "archived_snapshots" (PyDict []) ;;
       closest <- value_get snapshots "closest" PyNone ;;
       available <- (if truthy closest
                     then value_get closest "available" PyNone
                     else ret closest) ;;
       if truthy available
       then
         a_url <- value_get closest "url" PyNone ;;
         snapshot <- value_get closest "timestamp" PyNone ;;
         ret (a_url, snapshot)
       else ret (PyNone, PyNone))
      (fun _ => ret (PyNone, PyNone)).

Definition fetch_live (url : string) : io (option string * Z) :=
  if negb (truthy_str url) then ret (None, 0)
  else
    try_except
      (r <- _get (PyStr url) ;;
       if (status_code r =? 200) && truthy_str (text r)
          && (MIN_GOOD_LEN <? len (text r))
       then ret (Some (text r), status_code r)
       else ret (None, status_code r))
      (fun _ => ret (None, 0)).

Definition fetch_archived (archive_url : pyval) : io (option string * Z) :=
  if negb (truthy archive_url) then ret (None, 0)
  else
    try_except
      (r <- _get archive_url ;;
       if (status_code r =? 200) && truthy_str (text r)
          && (MIN_GOOD_LEN <? len (text r))
       then ret (Some (text r), status_code r)
       else ret (None, status_code r))
      (fun _ => ret (None, 0)).

(** The dict [collect_dual] returns, one field per key. *)
Record SnapshotResult : Type := mkSnapshotResult {
  archive_html : string;
  status_archive : string;
  archive_url : pyval;
  snapshot_ts : pyval;
  live_html : string;
  status_live : string;
  chosen_provenance : string;
  reason : string
}.

Definition set_archive (out : SnapshotResult) (html status : string)
    (a_url ts : pyval) : SnapshotResult :=
  {| archive_html := html; status_archive := status;
     archive_url := a_url; snapshot_ts := ts;
     live_html := live_html out; status_live := status_live out;
     chosen_provenance := chosen_provenance out; reason := reason out |}.

Definition set_live (out : SnapshotResult) (html status : string) : SnapshotResult :=
  {| archive_html := archive_html out; status_archive := status_archive out;
     archive_url := archive_url out; snapshot_ts := snapshot_ts out;
     live_html := html; status_live := status;
     chosen_provenance := chosen_provenance out; reason := reason out |}.

Definition set_choice (out : SnapshotResult) (provenance why : string) : SnapshotResult :=
  {| archive_html := archive_html out; status_archive := status_archive out;
     archive_url := archive_url out; snapshot_ts := snapshot_ts out;
     live_html := live_html out; status_live := status_live out;
     chosen_provenance := provenance; reason := why |}.

(** The initial value of [out]. *)
Definition out0 : SnapshotResult :=
  {| archive_html := ""; status_archive := "";
     archive_url := PyStr ""; snapshot_ts := PyStr "";
     live_html := ""; status_live := "";
     chosen_provenance := "none"; reason := "" |}.

(** Step 1 of [collect_dual]: archive first. *)
Definition archive_first (url : string) (year month : Z)
    (out : SnapshotResult) : io SnapshotResult :=
  '(a_url, ts) <- wayback_lookup url year month ;;
  if truthy a_url
  then
    '(html_a, code_a) <- fetch_archived a_url ;;
    ret (set_archive out (or_empty html_a) (str_or_empty code_a)
           a_url (or_ ts (PyStr "")))
  else ret out.

(** Step 2: the live page. *)
Definition live_in_parallel (url : string) (out : SnapshotResult) : io SnapshotResult :=
  '(html_l, code_l) <- fetch_live url ;;
  ret (set_live out (or_empty html_l) (str_or_empty code_l)).

(** Step 3: choose the authoritative source for the month. *)
Definition choose_authoritative (out : SnapshotResult) : SnapshotResult :=
  if MIN_GOOD_LEN <=? len (archive_html out)
  then set_choice out "archive" "archive_ok"
  else if MIN_GOOD_LEN <=? len (live_html out)
  then set_choice out "live" "archive_missing_or_small_live_ok"
  else set_choice out "none" "both_missing_or_small".

Definition collect_dual (url : string) (year month : Z) : io SnapshotResult :=
  out <- archive_first url year month out0 ;;
  out <- live_in_parallel url out ;;
  ret (choose_authoritative out).

(** ** Vocabulary of the statements *)

(** One attempt of [_get] on the wire. *)
Definition attempt (url : pyval) : event := EvGet url 25 HEADERS.

(** What [_get] leaves in the history when all three attempts fail. *)
Definition retries (url : pyval) : history :=
  [attempt url; EvSleep 750; attempt url; EvSleep 1500; attempt url; EvSleep 3000].

(** The transport fails on each of the three attempts [_get] makes on [url]
    from history [h]. *)
Definition exhausted (url : pyval) (h : history) : Prop :=
  (exists d, server (h ++ [attempt url]) = inl d) /\
  (exists d, server (h ++ [attempt url; EvSleep 750; attempt url]) = inl d) /\
  (exists d, server (h ++ [attempt url; EvSleep 750; attempt url;
                           EvSleep 1500; attempt url]) = inl d).

(** The address [wayback_lookup] builds in its variable [api]. *)
Definition lookup_url (url : string) (year month : Z) : pyval :=
  PyStr ("https://archive.org/wayback/available?url=" ++ quote url
         ++ "&timestamp=" ++ _mid_month_timestamp year month).

(** The [try] statement of [fetch_live] and [fetch_archived], which is the
    same text in both. *)
Definition try_fetch (url : pyval) : io (option string * Z) :=
  try_except
    (r <- _get url ;;
     if (status_code r =? 200) && truthy_str (text r)
        && (MIN_GOOD_LEN <? len (text r))
     then ret (Some (text r), status_code r)
     else ret (None, status_code r))
    (fun _ => ret (None, 0)).

(** A fetch outcome carries a body only when it is longer than
    [MIN_GOOD_LEN] and came with status 200. *)
Definition good_outcome (res : option string * Z) : Prop :=
  match fst res with
  | None => True
  | Some body => MIN_GOOD_LEN < len body /\ snd res = 200
  end.

(** Total time slept in a history, in milliseconds. *)
Fixpoint slept (h : history) : Z :=
  match h with
  | [] => 0
  | EvGet _ _ _ :: rest => slept rest
  | EvSleep millis :: rest => millis + slept rest
  end.

(** An event that, when it is a request, goes to one of [targets] with the
    given timeout and the [User-Agent] header of the module. *)
Definition request_to (targets : list pyval) (timeout : Z) (e : event) : Prop :=
  match e with
  | EvGet url t headers => In url targets /\ t = timeout /\ headers = HEADERS
  | EvSleep _ => True
  end.

(** [items.get(key, default)] on the items of a dict. *)
Definition get_or (key : string) (items : list (string * pyval)) (default : pyval) : pyval :=
  match lookup key items with Some x => x | None => default end.

Definition is_dict (v : pyval) : bool :=
  match v with PyDict _ => true | _ => false end.

(** The payloads on which every [.get] of [wayback_lookup] has a dict to work
    on: the payload is a dict, its "archived_snapshots" (when present) is a
    dict, and the "closest" entry of that is a dict or a false value. *)
Definition lookup_shape_ok (payload : pyval) : bool :=
  match payload with
  | PyDict items =>
      match get_or "archived_snapshots" items (PyDict []) with
      | PyDict snapshots =>
          let closest := get_or "closest" snapshots PyNone in
          negb (truthy closest) || is_dict closest
      | _ => false
      end
  | _ => false
  end.

(** A status on which [raise_for_status] raises. *)
Definition http_error (status : Z) : bool := (400 <=? status) && (status <? 600).

(** A string of decimal digits. *)
Definition is_digit (c : ascii) : bool :=
  (48 <=? nat_of_ascii c)%nat && (nat_of_ascii c <=? 57)%nat.

Fixpoint all_digits (s : string) : bool :=
  match s with
  | EmptyString => true
  | String c rest => is_digit c && all_digits rest
  end.

(** The number a string of digits stands for, -1 when it is none. *)
Definition number_of (s : string) : Z :=
  match NilEmpty.uint_of_string s with
  | Some d => Z.of_uint d
  | None => -1
  end.

(** [check] holds of the [count] integers from [k] on. *)
Fixpoint all_from (check : Z -> bool) (count : nat) (k : Z) : bool :=
  match count with
  | O => true
  | S count' => check k && all_from check count' (k + 1)
  end.

(** [fetch_sites.py], [main]: the value of [chosen_path] for a result, the
    two paths being given as their [str]. *)
Definition chosen_path_sites (result : SnapshotResult)
    (archive_path live_path : string) : string :=
  let archive_html := or_empty (Some (archive_html result)) in
  let live_html := or_empty (Some (live_html result)) in
  let chosen := chosen_provenance result in
  if String.eqb chosen "archive" && truthy_str archive_html then archive_path
  else if String.eqb chosen "live" && truthy_str live_html then live_path
  else "".

(** [fetch_all_sites.py]: the value of [chosen_path] for a result. *)
Definition chosen_path_all_sites (res : SnapshotResult)
    (archive_path live_path : string) : string :=
  let chosen := chosen_provenance res in
  if String.eqb chosen "archive" then archive_path
  else if String.eqb chosen "live" then live_path
  else "".

(** ** Python built-ins *)

Lemma str_nonempty (n : Z) : str n <> "".
Proof.
  unfold str, NilZero.string_of_int, NilZero.string_of_uint.
  destruct (Z.to_int n) as [d | d]; [ | discriminate ].
  destruct d; discriminate.
Qed.

(** ** The retrying HTTP primitive *)

Ltac norm_history := rewrite <- ?app_assoc; cbn [app].

Ltac run_get :=
  unfold _get; simpl _get_loop;
  unfold try_except, requests_get, bind, sleep, raise; fold attempt.

(** A first attempt that gets a response ends [_get]: one request, no sleep. *)
Lemma _get_first_response (url : pyval) (h : history) (r : Response) :
  server (h ++ [attempt url]) = inr r ->
  _get url h = (Returns r, (h ++ [attempt url])%list).
Proof.
  intros Hr. run_get. fold (attempt url). now rewrite Hr.
Qed.

(** The same at any iteration of the loop, whatever happened before. *)
Lemma _get_loop_response (url : pyval) (timeout backoff : Z) (tries : nat) (i : Z)
    (last_exc : option exn) (h : history) (r : Response) :
  server (h ++ [EvGet url timeout HEADERS]) = inr r ->
  _get_loop url timeout backoff (S tries) i last_exc h
  = (Returns r, (h ++ [EvGet url timeout HEADERS])%list).
Proof.
  intros Hr. simpl. unfold try_except, requests_get. now rewrite Hr.
Qed.

(** Three failed attempts: [_get] raises the last exception, after three
    requests and three sleeps. *)
Lemma _get_exhausted (url : pyval) (h : history) :
  exhausted url h ->
  exists d, _get url h = (Raises (RequestException d), (h ++ retries url)%list).
Proof.
  intros ([d1 H1] & [d2 H2] & [d3 H3]). exists d3.
  run_get. fold (attempt url).
  rewrite H1. norm_history. rewrite H2. norm_history. rewrite H3.
  norm_history. reflexivity.
Qed.

(** [_get] returns a response or raises a [RequestException], and in both
    cases it has sent at least one request. *)
Lemma _get_outcome (url : pyval) (h : history) :
  exists evs,
    (exists r, _get url h = (Returns r, (h ++ attempt url :: evs)%list)) \/
    (exists d, _get url h = (Raises (RequestException d), (h ++ attempt url :: evs)%list)).
Proof.
  run_get. fold (attempt url).
  destruct (server (h ++ [attempt url])) as [d1 | r1].
  2:{ exists []. left. now exists r1. }
  norm_history.
  destruct (server (h ++ [attempt url; EvSleep 750; attempt url])) as [d2 | r2].
  2:{ eexists. left. now exists r2. }
  norm_history.
  destruct (server (h ++ [attempt url; EvSleep 750; attempt url;
                          EvSleep 1500; attempt url])) as [d3 | r3].
  2:{ eexists. left. now exists r3. }
  norm_history. eexists. right. now exists d3.
Qed.

(** ** The two fetches *)

Lemma fetch_live_unfold (url : string) :
  fetch_live url = if negb (truthy_str url) then ret (None, 0) else try_fetch (PyStr url).
Proof. reflexivity. Qed.

Lemma fetch_archived_unfold (archive_url : pyval) :
  fetch_archived archive_url =
  if negb (truthy archive_url) then ret (None, 0) else try_fetch archive_url.
Proof. reflexivity. Qed.

(** The [try] statement never raises; it returns a body only when that body is
    longer than [MIN_GOOD_LEN]. *)
Lemma try_fetch_returns (url : pyval) (h : history) :
  exists res evs,
    try_fetch url h = (Returns res, (h ++ attempt url :: evs)%list) /\ good_outcome res.
Proof.
  unfold try_fetch, try_except, bind.
  destruct (_get_outcome url h) as [evs [[r Hg] | [d Hg]]]; rewrite Hg.
  - destruct ((status_code r =? 200) && truthy_str (text r)
              && (MIN_GOOD_LEN <? len (text r))) eqn:Hgood.
    + exists (Some (text r), status_code r), evs. split; [ reflexivity | ].
      apply andb_prop in Hgood as [Hgood Hlen].
      apply andb_prop in Hgood as [Hstatus _].
      unfold good_outcome; simpl. split; [ now apply Z.ltb_lt | now apply Z.eqb_eq ].
    + exists (None, status_code r), evs. split; [ reflexivity | exact I ].
  - exists (None, 0), evs. split; [ reflexivity | exact I ].
Qed.

Lemma try_fetch_exhausted (url : pyval) (h : history) :
  exhausted url h ->
  try_fetch url h = (Returns (None, 0), (h ++ retries url)%list).
Proof.
  intros Hx. destruct (_get_exhausted url h Hx) as [d Hg].
  unfold try_fetch, try_except, bind. now rewrite Hg.
Qed.

Lemma fetch_live_returns (url : string) (h : history) :
  exists res h',
    fetch_live url h = (Returns res, h') /\ good_outcome res /\
    (url <> "" -> exists evs, h' = (h ++ attempt (PyStr url) :: evs)%list).
Proof.
  rewrite fetch_live_unfold. destruct url as [ | c url]; simpl.
  - exists (None, 0), h.
    split; [ reflexivity | split; [ exact I | congruence ] ].
  - destruct (try_fetch_returns (PyStr (String c url)) h) as (res & evs & Hf & Hgood).
    exists res, (h ++ attempt (PyStr (String c url)) :: evs)%list.
    split; [ exact Hf | split; [ exact Hgood | ] ]. intros _. now exists evs.
Qed.

Lemma fetch_archived_returns (archive_url : pyval) (h : history) :
  exists res h', fetch_archived archive_url h = (Returns res, h') /\ good_outcome res.
Proof.
  rewrite fetch_archived_unfold. destruct (truthy archive_url); simpl.
  - destruct (try_fetch_returns archive_url h) as (res & evs & Hf & Hgood).
    now exists res, (h ++ attempt archive_url :: evs)%list.
  - exists (None, 0), h. split; [ reflexivity | exact I ].
Qed.

(** The test of the fetches is strict: a 200 response whose text has exactly
    [MIN_GOOD_LEN] characters yields no body. *)
Lemma fetch_archived_at_threshold (archive_url : pyval) (h : history) (r : Response) :
  truthy archive_url = true ->
  server (h ++ [attempt archive_url]) = inr r ->
  status_code r = 200 ->
  len (text r) = MIN_GOOD_LEN ->
  fetch_archived archive_url h = (Returns (None, 200), (h ++ [attempt archive_url])%list).
Proof.
  intros Hurl Hr Hstatus Hlen.
  rewrite fetch_archived_unfold, Hurl. cbn [negb].
  unfold try_fetch, try_except, bind. rewrite (_get_first_response _ _ _ Hr).
  now rewrite Hlen, Z.ltb_irrefl, andb_false_r, Hstatus.
Qed.

Lemma good_outcome_or_empty (res : option string * Z) :
  good_outcome res ->
  or_empty (fst res) = "" \/ MIN_GOOD_LEN < len (or_empty (fst res)).
Proof.
  unfold good_outcome. destruct res as [[body | ] code]; simpl; auto.
  intros [Hlen _]. destruct body; simpl; auto.
Qed.

(** ** The lookup *)

(** A [try] whose handler returns lets no [RequestException] through. *)
Lemma try_except_handled {A} (body : io A) (a : A) (h h' : history) (e : exn) :
  try_except body (fun _ => ret a) h = (Raises e, h') ->
  exists detail, e = AttributeError detail.
Proof.
  unfold try_except, ret. destruct (body h) as [[x | [d | d]] h1]; intros Heq.
  - discriminate.
  - discriminate.
  - injection Heq as <- _. now exists d.
Qed.

Lemma wayback_lookup_raises (url : string) (year month : Z) (h h' : history) (e : exn) :
  wayback_lookup url year month h = (Raises e, h') ->
  exists detail, e = AttributeError detail.
Proof.
  unfold wayback_lookup. destruct (negb (truthy_str url)).
  - discriminate.
  - apply try_except_handled.
Qed.

Lemma wayback_lookup_empty (year month : Z) (h : history) :
  wayback_lookup "" year month h = (Returns (PyNone, PyNone), h).
Proof. reflexivity. Qed.

Lemma wayback_lookup_exhausted (url : string) (year month : Z) (h : history) :
  truthy_str url = true ->
  exhausted (lookup_url url year month) h ->
  wayback_lookup url year month h =
  (Returns (PyNone, PyNone), (h ++ retries (lookup_url url year month))%list).
Proof.
  intros Hurl Hx. destruct (_get_exhausted _ h Hx) as [d Hg].
  unfold wayback_lookup. destruct url as [ | c url]; [ discriminate | ].
  cbn [truthy_str negb]. fold (lookup_url (String c url) year month).
  unfold try_except, bind. now rewrite Hg.
Qed.

(** Step 1 when the lookup finds no snapshot, and when it finds one whose
    fetch fails three times. *)
Lemma archive_first_no_snapshot (url : string) (year month : Z) (h h1 : history)
    (a_url ts : pyval) (out : SnapshotResult) :
  wayback_lookup url year month h = (Returns (a_url, ts), h1) ->
  truthy a_url = false ->
  archive_first url year month out h = (Returns out, h1).
Proof.
  intros Hw Ha. unfold archive_first, bind. now rewrite Hw, Ha.
Qed.

Lemma archive_first_exhausted (url : string) (year month : Z) (h h1 : history)
    (a_url ts : pyval) (out : SnapshotResult) :
  wayback_lookup url year month h = (Returns (a_url, ts), h1) ->
  truthy a_url = true ->
  exhausted a_url h1 ->
  archive_first url year month out h =
  (Returns (set_archive out "" "" a_url (or_ ts (PyStr ""))),
   (h1 ++ retries a_url)%list).
Proof.
  intros Hw Ha Hx. unfold archive_first, bind. rewrite Hw, Ha.
  rewrite fetch_archived_unfold, Ha. cbn [negb].
  now rewrite (try_fetch_exhausted _ _ Hx).
Qed.

Lemma fetch_live_exhausted (url : string) (h : history) :
  truthy_str url = true ->
  exhausted (PyStr url) h ->
  fetch_live url h = (Returns (None, 0), (h ++ retries (PyStr url))%list).
Proof.
  intros Hurl Hx. rewrite fetch_live_unfold, Hurl. now apply try_fetch_exhausted.
Qed.

(** ** The orchestration *)

(** How step 1 can end: the lookup raised, or it found nothing and [out] is
    untouched, or it found a snapshot and the archive fetch filled the archive
    fields. *)
Lemma archive_first_cases (url : string) (year month : Z) (out : SnapshotResult)
    (h : history) :
  (exists e h1,
      wayback_lookup url year month h = (Raises e, h1) /\
      archive_first url year month out h = (Raises e, h1)) \/
  (exists a_url ts h1,
      wayback_lookup url year month h = (Returns (a_url, ts), h1) /\
      truthy a_url = false /\
      archive_first url year month out h = (Returns out, h1)) \/
  (exists a_url ts h1 res h2,
      wayback_lookup url year month h = (Returns (a_url, ts), h1) /\
      truthy a_url = true /\
      fetch_archived a_url h1 = (Returns res, h2) /\
      good_outcome res /\
      archive_first url year month out h =
      (Returns (set_archive out (or_empty (fst res)) (str_or_empty (snd res))
                  a_url (or_ ts (PyStr ""))), h2)).
Proof.
  unfold archive_first, bind.
  destruct (wayback_lookup url year month h) as [[[a_url ts] | e] h1].
  - destruct (truthy a_url) eqn:Ha.
    + right; right.
      destruct (fetch_archived_returns a_url h1) as ([html code] & h2 & Hf & Hgood).
      exists a_url, ts, h1, (html, code), h2. rewrite Hf. auto.
    + right; left. exists a_url, ts, h1. auto.
  - left. exists e, h1. auto.
Qed.

Lemma collect_dual_steps (url : string) (year month : Z) (h h2 h3 : history)
    (arch : SnapshotResult) (res : option string * Z) :
  archive_first url year month out0 h = (Returns arch, h2) ->
  fetch_live url h2 = (Returns res, h3) ->
  collect_dual url year month h =
  (Returns (choose_authoritative
              (set_live arch (or_empty (fst res)) (str_or_empty (snd res)))), h3).
Proof.
  intros Ha Hl. destruct res as [html code].
  unfold collect_dual, live_in_parallel, bind. now rewrite Ha, Hl.
Qed.

(** A run of [collect_dual] that gets past step 1 returns a record: the live
    fetch is made from the history step 1 left, and its result is stored. *)
Lemma collect_dual_run (url : string) (year month : Z) (h h2 : history)
    (arch : SnapshotResult) :
  archive_first url year month out0 h = (Returns arch, h2) ->
  exists res h3,
    fetch_live url h2 = (Returns res, h3) /\ good_outcome res /\
    (url <> "" -> exists evs, h3 = (h2 ++ attempt (PyStr url) :: evs)%list) /\
    collect_dual url year month h =
    (Returns (choose_authoritative
                (set_live arch (or_empty (fst res)) (str_or_empty (snd res)))), h3).
Proof.
  intros Ha.
  destruct (fetch_live_returns url h2) as ([html code] & h3 & Hl & Hgood & Hev).
  exists (html, code), h3. repeat split; trivial.
  eapply collect_dual_steps; eassumption.
Qed.

Lemma collect_dual_inv (url : string) (year month : Z) (h h3 : history)
    (out : SnapshotResult) :
  collect_dual url year month h = (Returns out, h3) ->
  exists arch h2 res,
    archive_first url year month out0 h = (Returns arch, h2) /\
    fetch_live url h2 = (Returns res, h3) /\ good_outcome res /\
    (url <> "" -> exists evs, h3 = (h2 ++ attempt (PyStr url) :: evs)%list) /\
    out = choose_authoritative
            (set_live arch (or_empty (fst res)) (str_or_empty (snd res))).
Proof.
  intros Hrun.
  destruct (archive_first url year month out0 h) as [[arch | e] h2] eqn:Ha.
  - destruct (collect_dual_run url year month h h2 arch Ha)
      as (res & h3' & Hl & Hgood & Hev & Hc).
    rewrite Hc in Hrun. injection Hrun as <- <-.
    now exists arch, h2, res.
  - unfold collect_dual, bind in Hrun. rewrite Ha in Hrun. discriminate.
Qed.

(** Step 3 writes the two choice fields and nothing else. *)
Lemma choose_authoritative_fields (out : SnapshotResult) :
  let chosen := choose_authoritative out in
  archive_html chosen = archive_html out /\
  status_archive chosen = status_archive out /\
  archive_url chosen = archive_url out /\
  snapshot_ts chosen = snapshot_ts out /\
  live_html chosen = live_html out /\
  status_live chosen = status_live out.
Proof.
  unfold choose_authoritative.
  destruct (MIN_GOOD_LEN <=? len (archive_html out));
    [ | destruct (MIN_GOOD_LEN <=? len (live_html out)) ];
    simpl; repeat split.
Qed.

(** The decision table of step 3. *)
Lemma choose_authoritative_table (out : SnapshotResult) :
  let chosen := choose_authoritative out in
  (MIN_GOOD_LEN <= len (archive_html out) /\
   chosen_provenance chosen = "archive" /\ reason chosen = "archive_ok") \/
  (len (archive_html out) < MIN_GOOD_LEN /\
   MIN_GOOD_LEN <= len (live_html out) /\
   chosen_provenance chosen = "live" /\
   reason chosen = "archive_missing_or_small_live_ok") \/
  (len (archive_html out) < MIN_GOOD_LEN /\
   len (live_html out) < MIN_GOOD_LEN /\
   chosen_provenance chosen = "none" /\
   reason chosen = "both_missing_or_small").
Proof.
  unfold choose_authoritative.
  destruct (Z.leb_spec MIN_GOOD_LEN (len (archive_html out))) as [Ha | Ha].
  - left. simpl. auto.
  - destruct (Z.leb_spec MIN_GOOD_LEN (len (live_html out))) as [Hl | Hl].
    + right; left. simpl. auto.
    + right; right. simpl. auto.
Qed.

(** The bodies step 1 and step 2 store are empty or longer than
    [MIN_GOOD_LEN]. *)
Lemma archive_first_body (url : string) (year month : Z) (h h2 : history)
    (arch : SnapshotResult) :
  archive_first url year month out0 h = (Returns arch, h2) ->
  archive_html arch = "" \/ MIN_GOOD_LEN < len (archive_html arch).
Proof.
  intros Ha.
  destruct (archive_first_cases url year month out0 h)
    as [(e & h1 & _ & Hc) | [(a & ts & h1 & _ & _ & Hc)
                            | (a & ts & h1 & res & h2' & _ & _ & _ & Hgood & Hc)]];
    rewrite Hc in Ha; [ discriminate | | ]; injection Ha as <- _.
  - now left.
  - simpl. now apply good_outcome_or_empty.
Qed.

(** ** Properties of the returned record *)

(** C1.  In every record [collect_dual] returns, the provenance is "archive"
    exactly when the archive body has at least [MIN_GOOD_LEN] characters;
    failing that it is "live" exactly when the live body has at least
    [MIN_GOOD_LEN] characters; failing both it is "none".  The provenance
    comes with its own reason code: "archive_ok", "archive_missing_or_small_live_ok"
    or "both_missing_or_small". *)
Theorem collect_dual_provenance (url : string) (year month : Z) (h h' : history)
    (out : SnapshotResult) :
  collect_dual url year month h = (Returns out, h') ->
  (chosen_provenance out = "archive" <-> MIN_GOOD_LEN <= len (archive_html out)) /\
  (len (archive_html out) < MIN_GOOD_LEN ->
   (chosen_provenance out = "live" <-> MIN_GOOD_LEN <= len (live_html out))) /\
  (len (archive_html out) < MIN_GOOD_LEN -> len (live_html out) < MIN_GOOD_LEN ->
   chosen_provenance out = "none") /\
  ((chosen_provenance out = "archive" /\ reason out = "archive_ok") \/
   (chosen_provenance out = "live" /\ reason out = "archive_missing_or_small_live_ok") \/
   (chosen_provenance out = "none" /\ reason out = "both_missing_or_small")).
Proof.
  intros Hrun.
  destruct (collect_dual_inv _ _ _ _ _ _ Hrun) as (arch & h2 & res & _ & _ & _ & _ & ->).
  set (filled := set_live arch _ _).
  destruct (choose_authoritative_fields filled) as (Ea & _ & _ & _ & El & _).
  rewrite Ea, El.
  destruct (choose_authoritative_table filled)
    as [(Ha & Hp & Hr) | [(Ha & Hl & Hp & Hr) | (Ha & Hl & Hp & Hr)]];
    rewrite Hp, Hr.
  - repeat split; auto; try lia; intros; try lia; discriminate.
  - repeat split; auto; try lia; intros; try lia; discriminate.
  - repeat split; auto; try lia; intros; try lia; discriminate.
Qed.

(** C9.  In every record [collect_dual] returns, the archive body and the live
    body are each either empty or strictly longer than [MIN_GOOD_LEN]: a body
    of 1 to [MIN_GOOD_LEN] characters is never recorded. *)
Theorem collect_dual_bodies (url : string) (year month : Z) (h h' : history)
    (out : SnapshotResult) :
  collect_dual url year month h = (Returns out, h') ->
  (archive_html out = "" \/ MIN_GOOD_LEN < len (archive_html out)) /\
  (live_html out = "" \/ MIN_GOOD_LEN < len (live_html out)) /\
  ~ (1 <= len (archive_html out) <= MIN_GOOD_LEN) /\
  ~ (1 <= len (live_html out) <= MIN_GOOD_LEN).
Proof.
  intros Hrun.
  destruct (collect_dual_inv _ _ _ _ _ _ Hrun)
    as (arch & h2 & res & Ha & _ & Hgood & _ & ->).
  set (filled := set_live arch _ _).
  destruct (choose_authoritative_fields filled) as (Ea & _ & _ & _ & El & _).
  rewrite Ea, El. subst filled. simpl.
  pose proof (archive_first_body _ _ _ _ _ _ Ha) as Hbody.
  pose proof (good_outcome_or_empty res Hgood) as Hlive.
  assert (Hempty : len "" = 0) by reflexivity.
  repeat split; trivial.
  - destruct Hbody as [-> | ?]; lia.
  - destruct Hlive as [-> | ?]; lia.
Qed.

(** X18.  Whenever the lookup returns, the live fetch is made, whatever the
    archive fetch did: in every record [collect_dual] returns, the live fields
    hold the result of a [fetch_live] on the input URL run from the history
    step 1 left (so after any archive fetch, and also when the archive body is
    chosen), and for a non-empty URL that fetch put a request to the URL on
    the wire.  A record is returned whenever the lookup returns. *)
Theorem live_always_attempted (url : string) (year month : Z) (h : history) :
  (forall out h3,
      collect_dual url year month h = (Returns out, h3) ->
      exists arch h2 res,
        archive_first url year month out0 h = (Returns arch, h2) /\
        fetch_live url h2 = (Returns res, h3) /\
        live_html out = or_empty (fst res) /\
        status_live out = str_or_empty (snd res) /\
        (url <> "" -> exists evs, h3 = (h2 ++ attempt (PyStr url) :: evs)%list)) /\
  (forall a_url ts h1,
      wayback_lookup url year month h = (Returns (a_url, ts), h1) ->
      exists out h3, collect_dual url year month h = (Returns out, h3)).
Proof.
  split.
  - intros out h3 Hrun.
    destruct (collect_dual_inv _ _ _ _ _ _ Hrun)
      as (arch & h2 & res & Ha & Hl & _ & Hev & ->).
    exists arch, h2, res.
    destruct (choose_authoritative_fields
                (set_live arch (or_empty (fst res)) (str_or_empty (snd res))))
      as (_ & _ & _ & _ & El & Es).
    rewrite El, Es. repeat split; trivial.
  - intros a_url ts h1 Hw.
    destruct (archive_first_cases url year month out0 h)
      as [(e & h1' & Hw' & _) | [(a & t & h1' & _ & _ & Hc)
                                | (a & t & h1' & res & h2 & _ & _ & _ & _ & Hc)]].
    + rewrite Hw in Hw'. discriminate.
    + destruct (collect_dual_run _ _ _ _ _ _ Hc) as (res & h3 & _ & _ & _ & Hrun).
      eauto.
    + destruct (collect_dual_run _ _ _ _ _ _ Hc) as (res' & h3 & _ & _ & _ & Hrun).
      eauto.
Qed.

(** C5.  When the lookup returns (None, None), step 1 sends nothing after the
    lookup and leaves the record untouched, so the archive fields stay empty;
    the run goes on with the live fetch, and the choice is "live" or "none"
    according to the live body alone. *)
Theorem no_archive_found (url : string) (year month : Z) (h h1 : history) :
  wayback_lookup url year month h = (Returns (PyNone, PyNone), h1) ->
  archive_first url year month out0 h = (Returns out0, h1) /\
  exists res h2 out,
    fetch_live url h1 = (Returns res, h2) /\
    collect_dual url year month h = (Returns out, h2) /\
    archive_html out = "" /\ status_archive out = "" /\
    archive_url out = PyStr "" /\ snapshot_ts out = PyStr "" /\
    live_html out = or_empty (fst res) /\
    (chosen_provenance out = "live" <-> MIN_GOOD_LEN <= len (live_html out)) /\
    (chosen_provenance out = "none" <-> len (live_html out) < MIN_GOOD_LEN) /\
    chosen_provenance out <> "archive".
Proof.
  intros Hw.
  assert (Ha : archive_first url year month out0 h = (Returns out0, h1))
    by (now apply (archive_first_no_snapshot _ _ _ _ _ PyNone PyNone)).
  split; [ exact Ha | ].
  destruct (collect_dual_run _ _ _ _ _ _ Ha) as (res & h2 & Hl & _ & _ & Hrun).
  exists res, h2. eexists. split; [ exact Hl | ]. split; [ exact Hrun | ].
  set (filled := set_live out0 _ _).
  destruct (choose_authoritative_fields filled) as (Ea & Esa & Eu & Et & El & _).
  rewrite Ea, Esa, Eu, Et, El.
  destruct (choose_authoritative_table filled)
    as [(Hlen & _) | [(_ & Hlen & Hp & _) | (_ & Hlen & Hp & _)]].
  - subst filled. cbn in Hlen. unfold MIN_GOOD_LEN in Hlen. lia.
  - rewrite Hp. subst filled. cbn [live_html set_live] in Hlen |- *.
    repeat split; trivial; try discriminate; intros; lia.
  - rewrite Hp. subst filled. cbn [live_html set_live] in Hlen |- *.
    repeat split; trivial; try discriminate; intros; lia.
Qed.

(** C6.  On the empty URL both fetches return (None, 0) and the lookup returns
    (None, None), each without touching the network; [collect_dual] then
    returns a record whose provenance is "none" and whose reason is
    "both_missing_or_small", every other field being empty, and has sent
    nothing. *)
Theorem empty_url_both_missing (year month : Z) (h : history) :
  fetch_live "" h = (Returns (None, 0), h) /\
  fetch_archived (PyStr "") h = (Returns (None, 0), h) /\
  wayback_lookup "" year month h = (Returns (PyNone, PyNone), h) /\
  exists out,
    collect_dual "" year month h = (Returns out, h) /\
    chosen_provenance out = "none" /\
    reason out = "both_missing_or_small" /\
    archive_html out = "" /\ status_archive out = "" /\
    archive_url out = PyStr "" /\ snapshot_ts out = PyStr "" /\
    live_html out = "" /\ status_live out = "".
Proof.
  split; [ reflexivity | ]. split; [ reflexivity | ]. split; [ reflexivity | ].
  eexists. split; [ reflexivity | ]. repeat split.
Qed.

(** C7.  When the transport fails on all three attempts of [_get], [fetch_live]
    and [fetch_archived] return (None, 0) and [wayback_lookup] returns
    (None, None); no exception leaves [collect_dual]: with the lookup
    exhausted it returns a record whose archive fields are empty, and with the
    live fetch exhausted as well the record is the initial one with provenance
    "none".  On no network at all does a [RequestException] leave
    [collect_dual]. *)
Theorem retry_exhaustion (url : string) (year month : Z) (h : history) :
  truthy_str url = true ->
  (forall e h', collect_dual url year month h = (Raises e, h') ->
                exists detail, e = AttributeError detail) /\
  (forall a_url ts h1,
      wayback_lookup url year month h = (Returns (a_url, ts), h1) ->
      exists out h', collect_dual url year month h = (Returns out, h')) /\
  (exhausted (PyStr url) h ->
   fetch_live url h = (Returns (None, 0), (h ++ retries (PyStr url))%list) /\
   fetch_archived (PyStr url) h = (Returns (None, 0), (h ++ retries (PyStr url))%list)) /\
  (exhausted (lookup_url url year month) h ->
   wayback_lookup url year month h =
   (Returns (PyNone, PyNone), (h ++ retries (lookup_url url year month))%list) /\
   (exists out h', collect_dual url year month h = (Returns out, h') /\
                   archive_html out = "" /\ status_archive out = "") /\
   (exhausted (PyStr url) (h ++ retries (lookup_url url year month)) ->
    collect_dual url year month h =
    (Returns (set_choice out0 "none" "both_missing_or_small"),
     (h ++ retries (lookup_url url year month) ++ retries (PyStr url))%list))).
Proof.
  intros Hurl.
  assert (Hcases :
            (exists e h1, wayback_lookup url year month h = (Raises e, h1) /\
                          collect_dual url year month h = (Raises e, h1)) \/
            (exists out h', collect_dual url year month h = (Returns out, h'))).
  { destruct (archive_first_cases url year month out0 h)
      as [(e1 & h1 & Hw & Hc) | [(a & t & h1 & _ & _ & Hc)
                                | (a & t & h1 & res & h2 & _ & _ & _ & _ & Hc)]].
    - left. exists e1, h1. split; [ exact Hw | ].
      unfold collect_dual, bind. now rewrite Hc.
    - right. destruct (collect_dual_run _ _ _ _ _ _ Hc) as (? & ? & _ & _ & _ & Hret).
      eauto.
    - right. destruct (collect_dual_run _ _ _ _ _ _ Hc) as (? & ? & _ & _ & _ & Hret).
      eauto. }
  split; [ | split; [ | split ] ].
  - intros e h' Hrun.
    destruct Hcases as [(e1 & h1 & Hw & Hc) | (out & h1 & Hc)];
      rewrite Hc in Hrun; [ | discriminate ].
    injection Hrun as <- _. exact (wayback_lookup_raises _ _ _ _ _ _ Hw).
  - intros a_url ts h1 Hw.
    destruct Hcases as [(e1 & h1' & Hw' & _) | Hret]; [ | exact Hret ].
    rewrite Hw in Hw'. discriminate.
  - intros Hx. split; [ now apply fetch_live_exhausted | ].
    rewrite fetch_archived_unfold. cbn [truthy]. rewrite Hurl.
    now apply try_fetch_exhausted.
  - intros Hx.
    pose proof (wayback_lookup_exhausted url year month h Hurl Hx) as Hw.
    pose proof (archive_first_no_snapshot _ _ _ _ _ _ _ out0 Hw eq_refl) as Ha.
    split; [ exact Hw | ]. split.
    + destruct (collect_dual_run _ _ _ _ _ _ Ha) as (res & h3 & _ & _ & _ & Hrun).
      eexists; exists h3. split; [ exact Hrun | ].
      set (filled := set_live out0 _ _).
      destruct (choose_authoritative_fields filled) as (Ea & Esa & _).
      rewrite Ea, Esa. split; reflexivity.
    + intros Hlive.
      pose proof (fetch_live_exhausted url _ Hurl Hlive) as Hl.
      rewrite (collect_dual_steps _ _ _ _ _ _ _ _ Ha Hl).
      now rewrite <- app_assoc.
Qed.

(** C8.  A response whose status is not 200 ends [_get] at once, at the first
    iteration of its loop or at a later one: one request, no sleep, no further
    attempt.  The fetch returns no body and keeps the status code of the
    response. *)
Theorem non_200_not_retried (url : pyval) (h : history) (r : Response) :
  truthy url = true ->
  server (h ++ [attempt url]) = inr r ->
  status_code r <> 200 ->
  (forall tries i last_exc,
      _get_loop url 25 750 (S tries) i last_exc h
      = (Returns r, (h ++ [attempt url])%list)) /\
  _get url h = (Returns r, (h ++ [attempt url])%list) /\
  fetch_archived url h = (Returns (None, status_code r), (h ++ [attempt url])%list) /\
  (forall u, url = PyStr u ->
     fetch_live u h = (Returns (None, status_code r), (h ++ [attempt url])%list)).
Proof.
  intros Hurl Hr Hstatus.
  pose proof (_get_first_response url h r Hr) as Hg.
  assert (Hf : try_fetch url h = (Returns (None, status_code r), (h ++ [attempt url])%list)).
  { unfold try_fetch, try_except, bind. rewrite Hg.
    apply Z.eqb_neq in Hstatus. now rewrite Hstatus. }
  split; [ | split; [ exact Hg | split ] ].
  - intros tries i last_exc. now apply _get_loop_response.
  - now rewrite fetch_archived_unfold, Hurl.
  - intros u ->. rewrite fetch_live_unfold. simpl in Hurl. now rewrite Hurl.
Qed.

(** What step 1 stores when the lookup found a snapshot. *)
Lemma archive_first_found (url : string) (year month : Z) (h h1 h2 : history)
    (a_url ts : pyval) (res : option string * Z) (out : SnapshotResult) :
  wayback_lookup url year month h = (Returns (a_url, ts), h1) ->
  truthy a_url = true ->
  fetch_archived a_url h1 = (Returns res, h2) ->
  archive_first url year month out h =
  (Returns (set_archive out (or_empty (fst res)) (str_or_empty (snd res))
              a_url (or_ ts (PyStr ""))), h2).
Proof.
  intros Hw Ha Hf. destruct res as [html code].
  unfold archive_first, bind. now rewrite Hw, Ha, Hf.
Qed.

(** C10.  Status codes are recorded as text: the live status of a returned
    record is the text of the code the live fetch returned, and the archive
    status is the text of the code the archive fetch returned.  The code 0 is
    recorded as the empty text, not as "0"; every other code is recorded as
    its decimal text, which is not empty.  So the status field of a branch
    whose fetch failed three times is the same as that of a branch that was
    not fetched: the archive status is empty, as in the initial record, both
    when the lookup found nothing and when the archive fetch was exhausted;
    the live status is empty both on the empty URL, where nothing is sent,
    and when the live fetch was exhausted. *)
Theorem status_zero_is_empty :
  (str_or_empty 0 = "" /\ str 0 = "0" /\ str_or_empty 200 = "200") /\
  (forall code, code <> 0 -> str_or_empty code = str code /\ str_or_empty code <> "") /\
  (forall url year month h h1 a_url ts,
      wayback_lookup url year month h = (Returns (a_url, ts), h1) ->
      truthy a_url = false \/ exhausted a_url h1 ->
      exists out h', collect_dual url year month h = (Returns out, h') /\
                     status_archive out = "" /\
                     status_archive out = status_archive out0) /\
  (forall year month h,
      exists out, collect_dual "" year month h = (Returns out, h) /\
                  status_live out = "") /\
  (forall url year month h arch h2,
      archive_first url year month out0 h = (Returns arch, h2) ->
      truthy_str url = true -> exhausted (PyStr url) h2 ->
      exists out h', collect_dual url year month h = (Returns out, h') /\
                     status_live out = "" /\ status_live out = status_live out0) /\
  (forall url year month h out h',
      collect_dual url year month h = (Returns out, h') ->
      exists arch h2 res,
        archive_first url year month out0 h = (Returns arch, h2) /\
        fetch_live url h2 = (Returns res, h') /\
        status_live out = str_or_empty (snd res)) /\
  (forall url year month h h1 h2 a_url ts res,
      wayback_lookup url year month h = (Returns (a_url, ts), h1) ->
      truthy a_url = true ->
      fetch_archived a_url h1 = (Returns res, h2) ->
      exists out h', collect_dual url year month h = (Returns out, h') /\
                     status_archive out = str_or_empty (snd res)).
Proof.
  split; [ repeat split | ]. split; [ | split; [ | split; [ | split; [ | split ] ] ] ].
  - intros code Hcode. unfold str_or_empty, truthy_int.
    apply Z.eqb_neq in Hcode. rewrite Hcode. simpl.
    split; [ reflexivity | apply str_nonempty ].
  - intros url year month h h1 a_url ts Hw Hcase.
    assert (Ha : exists arch h2,
               archive_first url year month out0 h = (Returns arch, h2) /\
               status_archive arch = "").
    { destruct (truthy a_url) eqn:Htruthy.
      - destruct Hcase as [Hfalse | Hx]; [ discriminate | ].
        eexists; eexists. split.
        + eapply archive_first_exhausted; eassumption.
        + reflexivity.
      - exists out0, h1. split; [ | reflexivity ].
        eapply archive_first_no_snapshot; eassumption. }
    destruct Ha as (arch & h2 & Ha & Hs).
    destruct (collect_dual_run _ _ _ _ _ _ Ha) as (res & h3 & _ & _ & _ & Hrun).
    eexists; exists h3. split; [ exact Hrun | ].
    set (filled := set_live arch _ _).
    destruct (choose_authoritative_fields filled) as (_ & Esa & _).
    rewrite Esa. subst filled. cbn [status_archive set_live]. now rewrite Hs.
  - intros year month h. eexists. split; reflexivity.
  - intros url year month h arch h2 Ha Hurl Hx.
    pose proof (fetch_live_exhausted url h2 Hurl Hx) as Hl.
    eexists; eexists. split.
    + exact (collect_dual_steps _ _ _ _ _ _ _ _ Ha Hl).
    + set (filled := set_live arch _ _).
      destruct (choose_authoritative_fields filled) as (_ & _ & _ & _ & _ & Esl).
      rewrite Esl. split; reflexivity.
  - intros url year month h out h' Hrun.
    destruct (collect_dual_inv _ _ _ _ _ _ Hrun)
      as (arch & h2 & res & Ha & Hl & _ & _ & ->).
    exists arch, h2, res. split; [ exact Ha | ]. split; [ exact Hl | ].
    set (filled := set_live arch _ _).
    destruct (choose_authoritative_fields filled) as (_ & _ & _ & _ & _ & Esl).
    now rewrite Esl.
  - intros url year month h h1 h2 a_url ts res Hw Htruthy Hf.
    pose proof (archive_first_found _ _ _ _ _ _ _ _ _ out0 Hw Htruthy Hf) as Ha.
    destruct (collect_dual_run _ _ _ _ _ _ Ha) as (res' & h3 & _ & _ & _ & Hrun).
    eexists; exists h3. split; [ exact Hrun | ].
    set (filled := set_live _ _ _).
    destruct (choose_authoritative_fields filled) as (_ & Esa & _).
    now rewrite Esa.
Qed.

(** The choice of step 3 reads the record only through the two comparisons
    with [MIN_GOOD_LEN]. *)
Lemma choose_authoritative_reads_two_bits (out1 out2 : SnapshotResult) :
  (MIN_GOOD_LEN <=? len (archive_html out1)) = (MIN_GOOD_LEN <=? len (archive_html out2)) ->
  (MIN_GOOD_LEN <=? len (live_html out1)) = (MIN_GOOD_LEN <=? len (live_html out2)) ->
  chosen_provenance (choose_authoritative out1) = chosen_provenance (choose_authoritative out2) /\
  reason (choose_authoritative out1) = reason (choose_authoritative out2).
Proof.
  intros Harch Hlive. unfold choose_authoritative. rewrite Harch, Hlive.
  destruct (MIN_GOOD_LEN <=? len (archive_html out2));
    [ | destruct (MIN_GOOD_LEN <=? len (live_html out2)) ]; split; reflexivity.
Qed.

(** ** The retry loop for any number of tries *)

Lemma requests_in_app (h1 h2 : history) :
  requests_in (h1 ++ h2) = (requests_in h1 + requests_in h2)%nat.
Proof.
  induction h1 as [ | [u t hd | ms] h1 IH]; simpl; auto.
Qed.

Lemma slept_app (h1 h2 : history) : slept (h1 ++ h2) = slept h1 + slept h2.
Proof.
  induction h1 as [ | [u t hd | ms] h1 IH]; simpl; lia.
Qed.

Lemma request_to_incl (targets targets' : list pyval) (timeout : Z) (evs : history) :
  incl targets targets' ->
  Forall (request_to targets timeout) evs ->
  Forall (request_to targets' timeout) evs.
Proof.
  intros Hincl. apply Forall_impl. intros [u t hd | ms]; simpl; [ | trivial ].
  intros (Hin & Ht & Hhd). auto.
Qed.

(** What a run of the loop leaves behind, by induction on the number of tries
    that are left; it is used at the defaults of [_get]. *)
Lemma _get_loop_run (url : pyval) (timeout backoff : Z) (tries : nat) :
  forall (i : Z) (last_exc : option exn) (h : history),
  exists evs,
    snd (_get_loop url timeout backoff tries i last_exc h) = (h ++ evs)%list /\
    Forall (request_to [url] timeout) evs /\
    match fst (_get_loop url timeout backoff tries i last_exc h) with
    | Returns r =>
        server (h ++ evs) = inr r /\
        (exists p, evs = (p ++ [EvGet url timeout HEADERS])%list) /\
        (1 <= requests_in evs <= tries)%nat /\
        (0 <= i ->
         slept evs = backoff * 2 ^ i * (2 ^ (Z.of_nat (requests_in evs) - 1) - 1))
    | Raises e =>
        requests_in evs = tries /\
        (0 <= i -> slept evs = backoff * 2 ^ i * (2 ^ Z.of_nat tries - 1)) /\
        match tries with
        | O => evs = [] /\
               e = match last_exc with
                   | Some e0 => e0
                   | None => RequestException "Unknown requests error"
                   end
        | S _ => exists d p ms,
                   e = RequestException d /\
                   evs = (p ++ [EvSleep ms])%list /\
                   server (h ++ p) = inl d
        end
    end.
Proof.
  induction tries as [ | tries IH]; intros i last_exc h.
  - exists []. simpl. rewrite app_nil_r.
    destruct last_exc as [e0 | ]; simpl; repeat split; auto; intros; lia.
  - simpl _get_loop. unfold try_except, requests_get.
    set (g := EvGet url timeout HEADERS).
    destruct (server (h ++ [g])) as [d | r] eqn:Hs.
    + unfold bind, sleep.
      set (h2 := ((h ++ [g]) ++ [EvSleep (backoff * 2 ^ i)])%list).
      destruct (IH (i + 1) (Some (RequestException d)) h2)
        as (evs & Hsnd & Hall & Hout).
      exists (g :: EvSleep (backoff * 2 ^ i) :: evs).
      assert (Hh2 : (h2 ++ evs = h ++ g :: EvSleep (backoff * 2 ^ i) :: evs)%list).
      { unfold h2. now rewrite <- !app_assoc. }
      split; [ now rewrite Hsnd | ].
      split.
      { constructor; [ simpl; auto | ]. constructor; [ exact I | exact Hall ]. }
      assert (Hcount : requests_in (g :: EvSleep (backoff * 2 ^ i) :: evs)
                       = S (requests_in evs)) by reflexivity.
      assert (Htime : slept (g :: EvSleep (backoff * 2 ^ i) :: evs)
                      = backoff * 2 ^ i + slept evs) by reflexivity.
      rewrite Hcount, Htime. clear Hcount Htime.
      destruct (fst (_get_loop url timeout backoff tries (i + 1)
                       (Some (RequestException d)) h2)) as [r | e].
      * destruct Hout as (Hr & [p Hp] & Hreq & Hslept).
        split; [ now rewrite <- Hh2 | ].
        split; [ exists (g :: EvSleep (backoff * 2 ^ i) :: p); now rewrite Hp | ].
        split; [ lia | ].
        intros Hi. rewrite Hslept by lia.
        replace (Z.of_nat (S (requests_in evs)) - 1)
          with (Z.succ (Z.of_nat (requests_in evs) - 1)) by lia.
        rewrite (Z.pow_succ_r 2 (Z.of_nat (requests_in evs) - 1)) by lia.
        replace (i + 1) with (Z.succ i) by lia. rewrite Z.pow_succ_r by lia.
        ring.
      * destruct Hout as (Hreq & Hslept & Hlast).
        split; [ now rewrite Hreq | ].
        split.
        { intros Hi. rewrite Hslept by lia.
          rewrite Nat2Z.inj_succ, Z.pow_succ_r by lia.
          replace (i + 1) with (Z.succ i) by lia. rewrite Z.pow_succ_r by lia.
          ring. }
        destruct tries as [ | tries'].
        -- destruct Hlast as [-> ->].
           exists d, [g], (backoff * 2 ^ i). repeat split; auto.
        -- destruct Hlast as (d' & p & ms & He & Hevs & Hd').
           exists d', (g :: EvSleep (backoff * 2 ^ i) :: p), ms.
           split; [ exact He | ]. split; [ now rewrite Hevs | ].
           rewrite <- Hd'. f_equal. unfold h2. now rewrite <- !app_assoc.
    + exists [g]. simpl. split; [ reflexivity | ].
      split; [ constructor; [ simpl; auto | constructor ] | ].
      split; [ exact Hs | ]. split; [ now exists [] | ].
      split; [ lia | ]. intros _. simpl. ring.
Qed.

(** The four runs [_get] can make with its defaults: a response at the
    first, second or third attempt, or three failures. *)
Lemma _get_four_runs (url : pyval) (h : history) :
  (exists r,
      server (h ++ [attempt url]) = inr r /\
      _get url h = (Returns r, (h ++ [attempt url])%list)) \/
  (exists d1 r,
      server (h ++ [attempt url]) = inl d1 /\
      server (h ++ [attempt url; EvSleep 750; attempt url]) = inr r /\
      _get url h = (Returns r, (h ++ [attempt url; EvSleep 750; attempt url])%list)) \/
  (exists d1 d2 r,
      server (h ++ [attempt url]) = inl d1 /\
      server (h ++ [attempt url; EvSleep 750; attempt url]) = inl d2 /\
      server (h ++ [attempt url; EvSleep 750; attempt url;
                    EvSleep 1500; attempt url]) = inr r /\
      _get url h =
      (Returns r, (h ++ [attempt url; EvSleep 750; attempt url;
                         EvSleep 1500; attempt url])%list)) \/
  (exists d1 d2 d3,
      server (h ++ [attempt url]) = inl d1 /\
      server (h ++ [attempt url; EvSleep 750; attempt url]) = inl d2 /\
      server (h ++ [attempt url; EvSleep 750; attempt url;
                    EvSleep 1500; attempt url]) = inl d3 /\
      _get url h = (Raises (RequestException d3), (h ++ retries url)%list)).
Proof.
  run_get. fold (attempt url).
  destruct (server (h ++ [attempt url])) as [d1 | r1] eqn:H1.
  2:{ left. now exists r1. }
  norm_history.
  destruct (server (h ++ [attempt url; EvSleep 750; attempt url])) as [d2 | r2] eqn:H2.
  2:{ right; left. now exists d1, r2. }
  norm_history.
  destruct (server (h ++ [attempt url; EvSleep 750; attempt url;
                          EvSleep 1500; attempt url])) as [d3 | r3] eqn:H3.
  2:{ right; right; left. now exists d1, d2, r3. }
  norm_history. right; right; right. now exists d1, d2, d3.
Qed.

(** X1.  [_get] only ever appends to the history; what it appends are
    requests to the one URL, each with timeout 25 and the [User-Agent]
    header, and sleeps.  It sends at most three requests: exactly three when
    it raises, at least one when it returns. *)
Theorem get_request_budget (url : pyval) (h : history) :
  exists evs,
    snd (_get url h) = (h ++ evs)%list /\
    Forall (request_to [url] 25) evs /\
    (requests_in evs <= 3)%nat /\
    (forall e, fst (_get url h) = Raises e -> requests_in evs = 3%nat) /\
    (forall r, fst (_get url h) = Returns r -> (1 <= requests_in evs)%nat).
Proof.
  assert (Hsend : request_to [url] 25 (attempt url)) by (simpl; auto).
  destruct (_get_four_runs url h)
    as [(r & _ & ->) | [(d1 & r & _ & _ & ->)
       | [(d1 & d2 & r & _ & _ & _ & ->) | (d1 & d2 & d3 & _ & _ & _ & ->)]]];
    eexists; (split; [ reflexivity | ]);
    (split; [ repeat constructor; exact Hsend | ]);
    simpl; (split; [ lia | ]); split; intros x Hx;
    first [ discriminate | reflexivity | lia ].
Qed.

(** X2.  The backoff of [_get] doubles from 750 ms: when all three attempts
    fail it has sent request, slept 750, request, slept 1500, request, slept
    3000, which is 5250 ms in total; when it returns at its n-th request it
    has slept [750 * (2 ^ (n - 1) - 1)] ms.  No run sleeps more than
    5250 ms. *)
Theorem get_backoff_schedule (url : pyval) (h : history) :
  exists evs,
    snd (_get url h) = (h ++ evs)%list /\
    (forall e, fst (_get url h) = Raises e ->
               evs = retries url /\ slept evs = 5250) /\
    (forall r, fst (_get url h) = Returns r ->
               slept evs = 750 * (2 ^ (Z.of_nat (requests_in evs) - 1) - 1)) /\
    0 <= slept evs <= 5250.
Proof.
  destruct (_get_four_runs url h)
    as [(r & _ & ->) | [(d1 & r & _ & _ & ->)
       | [(d1 & d2 & r & _ & _ & _ & ->) | (d1 & d2 & d3 & _ & _ & _ & ->)]]];
    eexists; (split; [ reflexivity | ]);
    (split; [ intros x Hx; first [ discriminate | split; reflexivity ] | ]);
    (split; [ intros x Hx; first [ discriminate | reflexivity ] | ]);
    simpl; lia.
Qed.

(** X3.  A response [_get] returns is the answer to the last request in the
    history: nothing is sent or slept after it.  An exception [_get] raises
    is the one of its third attempt, raised after the sleep of 3000 ms that
    follows that attempt. *)
Theorem get_last_answer (url : pyval) (h : history) :
  (forall r h',
      _get url h = (Returns r, h') ->
      server h' = inr r /\
      exists p, h' = ((h ++ p) ++ [attempt url])%list) /\
  (forall e h',
      _get url h = (Raises e, h') ->
      exists d p,
        e = RequestException d /\ h' = ((h ++ p) ++ [EvSleep 3000])%list /\
        server (h ++ p) = inl d).
Proof.
  destruct (_get_four_runs url h)
    as [(r & H1 & Hrun) | [(d1 & r & _ & H2 & Hrun)
       | [(d1 & d2 & r & _ & _ & H3 & Hrun) | (d1 & d2 & d3 & _ & _ & H3 & Hrun)]]];
    rewrite Hrun; split; intros x h' Heq; try discriminate;
    injection Heq as <- <-.
  - split; [ exact H1 | ]. exists []. now rewrite app_nil_r.
  - split; [ exact H2 | ]. exists [attempt url; EvSleep 750].
    now rewrite <- app_assoc.
  - split; [ exact H3 | ].
    exists [attempt url; EvSleep 750; attempt url; EvSleep 1500].
    now rewrite <- app_assoc.
  - exists d3, [attempt url; EvSleep 750; attempt url; EvSleep 1500; attempt url].
    split; [ reflexivity | ]. split; [ | exact H3 ].
    now rewrite <- app_assoc.
Qed.

(** ** What a run sends *)

(** The events of [_get] with its defaults. *)
Lemma _get_events (url : pyval) (h : history) :
  exists evs,
    snd (_get url h) = (h ++ evs)%list /\
    Forall (request_to [url] 25) evs /\
    (requests_in evs <= 3)%nat /\ 0 <= slept evs <= 5250.
Proof.
  unfold _get.
  destruct (_get_loop_run url 25 750 3 0 None h) as (evs & Hsnd & Hall & Hout).
  exists evs. split; [ exact Hsnd | ]. split; [ exact Hall | ].
  destruct (fst (_get_loop url 25 750 3 0 None h)) as [r | e].
  - destruct Hout as (_ & _ & Hreq & Hslept). split; [ lia | ].
    rewrite Hslept by lia.
    assert (Hcases : requests_in evs = 1%nat \/ requests_in evs = 2%nat
                     \/ requests_in evs = 3%nat) by lia.
    destruct Hcases as [-> | [-> | ->]]; simpl; lia.
  - destruct Hout as (Hreq & Hslept & _). split; [ lia | ].
    rewrite Hslept by lia. simpl. lia.
Qed.

(** The [try] statement of the fetches leaves the history [_get] left. *)
Lemma try_fetch_history (url : pyval) (h : history) :
  snd (try_fetch url h) = snd (_get url h).
Proof.
  unfold try_fetch, try_except, bind.
  destruct (_get url h) as [[r | [d | d]] h1]; simpl; [ | reflexivity | reflexivity ].
  destruct ((status_code r =? 200) && truthy_str (text r)
            && (MIN_GOOD_LEN <? len (text r))); reflexivity.
Qed.

Lemma fetch_archived_events (archive_url : pyval) (h : history) :
  exists evs,
    snd (fetch_archived archive_url h) = (h ++ evs)%list /\
    Forall (request_to [archive_url] 25) evs /\
    (requests_in evs <= 3)%nat /\ 0 <= slept evs <= 5250.
Proof.
  rewrite fetch_archived_unfold. destruct (negb (truthy archive_url)).
  - exists []. simpl. rewrite app_nil_r. repeat split; auto; lia.
  - rewrite try_fetch_history. apply _get_events.
Qed.

Lemma fetch_live_events (url : string) (h : history) :
  exists evs,
    snd (fetch_live url h) = (h ++ evs)%list /\
    Forall (request_to [PyStr url] 25) evs /\
    (requests_in evs <= 3)%nat /\ 0 <= slept evs <= 5250.
Proof.
  rewrite fetch_live_unfold. destruct (negb (truthy_str url)).
  - exists []. simpl. rewrite app_nil_r. repeat split; auto; lia.
  - rewrite try_fetch_history. apply _get_events.
Qed.

(** After its request the lookup only computes. *)
Lemma wayback_lookup_history (url : string) (year month : Z) (h : history) :
  truthy_str url = true ->
  snd (wayback_lookup url year month h) = snd (_get (lookup_url url year month) h).
Proof.
  intros Hurl. unfold wayback_lookup. rewrite Hurl. cbn [negb].
  fold (lookup_url url year month).
  unfold try_except, bind.
  destruct (_get (lookup_url url year month) h) as [[r | [d | d]] h1];
    [ | reflexivity | reflexivity ].
  unfold raise_for_status, json_of, value_get, raise, ret.
  destruct ((400 <=? status_code r) && (status_code r <? 600)); [ reflexivity | ].
  destruct (json r) as [payload | ]; [ | reflexivity ].
  destruct payload as [ | b | n | s0 | l | items]; try reflexivity.
  destruct (match lookup "archived_snapshots" items with
            | Some x => x
            | None => PyDict []
            end) as [ | b | n | s0 | l | snaps]; try reflexivity.
  destruct (match lookup "closest" snaps with
            | Some x => x
            | None => PyNone
            end) as [ | b | n | s0 | l | c] eqn:Hclosest; simpl;
    repeat match goal with
           | |- context [if ?b then _ else _] => destruct b; simpl
           | |- context [match ?l with [] => _ | _ :: _ => _ end] => destruct l; simpl
           end;
    try reflexivity.
Qed.

Lemma wayback_lookup_events (url : string) (year month : Z) (h : history) :
  exists evs,
    snd (wayback_lookup url year month h) = (h ++ evs)%list /\
    Forall (request_to [lookup_url url year month] 25) evs /\
    (requests_in evs <= 3)%nat /\ 0 <= slept evs <= 5250.
Proof.
  destruct (truthy_str url) eqn:Hurl.
  - rewrite (wayback_lookup_history _ _ _ _ Hurl). apply _get_events.
  - destruct url; [ | discriminate ]. exists []. simpl. rewrite app_nil_r.
    repeat split; auto; lia.
Qed.

Lemma archive_first_events (url : string) (year month : Z) (out : SnapshotResult)
    (h : history) :
  exists evs,
    snd (archive_first url year month out h) = (h ++ evs)%list /\
    (requests_in evs <= 6)%nat /\ 0 <= slept evs <= 10500 /\
    match fst (archive_first url year month out h) with
    | Returns arch =>
        Forall (request_to [lookup_url url year month; archive_url arch] 25) evs
    | Raises _ => Forall (request_to [lookup_url url year month] 25) evs
    end.
Proof.
  destruct (wayback_lookup_events url year month h) as (evs1 & Hsnd1 & Hall1 & Hreq1 & Hsl1).
  destruct (archive_first_cases url year month out h)
    as [(e & h1 & Hw & Hc) | [(a & ts & h1 & Hw & _ & Hc)
                            | (a & ts & h1 & res & h2 & Hw & _ & Hf & _ & Hc)]];
    rewrite Hw in Hsnd1; simpl in Hsnd1; rewrite Hc; simpl.
  - exists evs1. repeat split; trivial; lia.
  - exists evs1. repeat split; trivial; try lia.
    eapply request_to_incl; [ | exact Hall1 ]. intros x [<- | []]. now left.
  - destruct (fetch_archived_events a h1) as (evs2 & Hsnd2 & Hall2 & Hreq2 & Hsl2).
    rewrite Hf in Hsnd2. simpl in Hsnd2.
    exists (evs1 ++ evs2)%list.
    split; [ now rewrite Hsnd2, Hsnd1, app_assoc | ].
    rewrite requests_in_app, slept_app.
    split; [ lia | ]. split; [ lia | ].
    apply Forall_app. split.
    + eapply request_to_incl; [ | exact Hall1 ]. intros x [<- | []]. now left.
    + eapply request_to_incl; [ | exact Hall2 ]. intros x [<- | []]. right; now left.
Qed.

Lemma collect_dual_events (url : string) (year month : Z) (h : history) :
  exists evs,
    snd (collect_dual url year month h) = (h ++ evs)%list /\
    (requests_in evs <= 9)%nat /\ 0 <= slept evs <= 15750 /\
    match fst (collect_dual url year month h) with
    | Returns out =>
        Forall (request_to [lookup_url url year month; archive_url out; PyStr url] 25) evs
    | Raises _ => Forall (request_to [lookup_url url year month] 25) evs
    end.
Proof.
  destruct (archive_first_events url year month out0 h)
    as (evs1 & Hsnd1 & Hreq1 & Hsl1 & Hall1).
  destruct (archive_first url year month out0 h) as [[arch | e] h2] eqn:Ha;
    simpl in Hsnd1, Hall1.
  - destruct (collect_dual_run _ _ _ _ _ _ Ha) as (res & h3 & Hl & _ & _ & Hrun).
    destruct (fetch_live_events url h2) as (evs2 & Hsnd2 & Hall2 & Hreq2 & Hsl2).
    rewrite Hl in Hsnd2. simpl in Hsnd2. rewrite Hrun. simpl.
    exists (evs1 ++ evs2)%list.
    split; [ now rewrite Hsnd2, Hsnd1, app_assoc | ].
    rewrite requests_in_app, slept_app.
    split; [ lia | ]. split; [ lia | ].
    set (filled := set_live arch _ _).
    destruct (choose_authoritative_fields filled) as (_ & _ & -> & _).
    subst filled. cbn [archive_url set_live].
    apply Forall_app. split.
    + eapply request_to_incl; [ | exact Hall1 ].
      intros x [<- | [<- | []]]; simpl; auto.
    + eapply request_to_incl; [ | exact Hall2 ].
      intros x [<- | []]; simpl; auto.
  - exists evs1. unfold collect_dual, bind. rewrite Ha. simpl.
    repeat split; trivial; lia.
Qed.

(** X4.  One call of [collect_dual] only appends to the history, sends at most
    nine requests and sleeps at most 15750 ms between attempts, whether it
    returns or raises. *)
Theorem collect_dual_budget (url : string) (year month : Z) (h : history) :
  exists evs,
    snd (collect_dual url year month h) = (h ++ evs)%list /\
    (requests_in evs <= 9)%nat /\ 0 <= slept evs <= 15750.
Proof.
  destruct (collect_dual_events url year month h) as (evs & Hsnd & Hreq & Hsl & _).
  now exists evs.
Qed.

(** X5.  Every request of a call of [collect_dual] has timeout 25 and the
    [User-Agent] header, and goes to one of three addresses: the lookup
    address of the archive service, the archive address recorded in the
    returned record, or the input URL.  When the call raises, it has only
    talked to the lookup address. *)
Theorem collect_dual_requests (url : string) (year month : Z) (h : history) :
  (forall out h',
      collect_dual url year month h = (Returns out, h') ->
      exists evs,
        h' = (h ++ evs)%list /\
        Forall (request_to [lookup_url url year month; archive_url out; PyStr url] 25)
          evs) /\
  (forall e h',
      collect_dual url year month h = (Raises e, h') ->
      exists evs,
        h' = (h ++ evs)%list /\
        Forall (request_to [lookup_url url year month] 25) evs).
Proof.
  destruct (collect_dual_events url year month h) as (evs & Hsnd & _ & _ & Hall).
  split; intros x h' Hrun; rewrite Hrun in Hsnd, Hall; simpl in Hsnd, Hall;
    exists evs; auto.
Qed.

(** ** What the lookup makes of a response *)

Lemma value_get_dict (items : list (string * pyval)) (key : string) (default : pyval)
    (h : history) :
  value_get (PyDict items) key default h = (Returns (get_or key items default), h).
Proof. reflexivity. Qed.

(** The lookup once [_get] has returned a response. *)
Lemma wayback_lookup_after_get (url : string) (year month : Z) (h h1 : history)
    (r : Response) :
  truthy_str url = true ->
  _get (lookup_url url year month) h = (Returns r, h1) ->
  wayback_lookup url year month h =
  try_except
    (raise_for_status r ;;;
     payload <- json_of r ;;
     snapshots <- value_get payload "archived_snapshots" (PyDict []) ;;
     closest <- value_get snapshots "closest" PyNone ;;
     available <- (if truthy closest
                   then value_get closest "available" PyNone
                   else ret closest) ;;
     if truthy available
     then
       a_url <- value_get closest "url" PyNone ;;
       snapshot <- value_get closest "timestamp" PyNone ;;
       ret (a_url, snapshot)
     else ret (PyNone, PyNone))
    (fun _ => ret (PyNone, PyNone)) h1.
Proof.
  intros Hurl Hg. unfold wayback_lookup. rewrite Hurl. cbn [negb].
  fold (lookup_url url year month).
  unfold try_except at 1 2. unfold bind at 1 7. now rewrite Hg.
Qed.

Ltac run_lookup Hurl Hg Hstatus :=
  rewrite (wayback_lookup_after_get _ _ _ _ _ _ Hurl Hg);
  unfold try_except, bind, raise_for_status;
  unfold http_error in Hstatus; rewrite Hstatus.

(** X6.  A response with an HTTP error status (400 to 599), or one whose body
    is not JSON, makes the lookup return (None, None); nothing is sent after
    that response. *)
Theorem lookup_degrades_on_bad_response (url : string) (year month : Z)
    (h h1 : history) (r : Response) :
  truthy_str url = true ->
  _get (lookup_url url year month) h = (Returns r, h1) ->
  http_error (status_code r) = true \/ json r = None ->
  wayback_lookup url year month h = (Returns (PyNone, PyNone), h1).
Proof.
  intros Hurl Hg Hbad. destruct (http_error (status_code r)) eqn:Hstatus.
  - run_lookup Hurl Hg Hstatus. reflexivity.
  - destruct Hbad as [Hbad | Hjson]; [ discriminate | ].
    run_lookup Hurl Hg Hstatus. unfold json_of. now rewrite Hjson.
Qed.

(** X7.  When the payload holds a "closest" snapshot that is a dict, the
    lookup returns its "url" and "timestamp" entries if its "available" entry
    is true, each entry being None when the key is missing; if "available" is
    missing or false it returns (None, None). *)
Theorem lookup_reads_closest (url : string) (year month : Z) (h h1 : history)
    (r : Response) (items snapshots closest : list (string * pyval)) :
  truthy_str url = true ->
  _get (lookup_url url year month) h = (Returns r, h1) ->
  http_error (status_code r) = false ->
  json r = Some (PyDict items) ->
  get_or "archived_snapshots" items (PyDict []) = PyDict snapshots ->
  get_or "closest" snapshots PyNone = PyDict closest ->
  wayback_lookup url year month h =
  (Returns (if truthy (get_or "available" closest PyNone)
            then (get_or "url" closest PyNone, get_or "timestamp" closest PyNone)
            else (PyNone, PyNone)), h1).
Proof.
  intros Hurl Hg Hstatus Hjson Hsnap Hclosest.
  run_lookup Hurl Hg Hstatus. unfold json_of. rewrite Hjson.
  cbn [ret]. rewrite value_get_dict, Hsnap, value_get_dict, Hclosest.
  destruct closest as [ | kv closest].
  - reflexivity.
  - cbn [truthy]. rewrite value_get_dict.
    destruct (truthy (get_or "available" (kv :: closest) PyNone)); reflexivity.
Qed.

(** X8.  When the payload is a dict without "archived_snapshots", or its
    snapshots dict has no "closest" entry or a false one (None, an empty
    dict, 0, an empty string), the lookup returns (None, None). *)
Theorem lookup_without_snapshot (url : string) (year month : Z) (h h1 : history)
    (r : Response) (items snapshots : list (string * pyval)) :
  truthy_str url = true ->
  _get (lookup_url url year month) h = (Returns r, h1) ->
  http_error (status_code r) = false ->
  json r = Some (PyDict items) ->
  get_or "archived_snapshots" items (PyDict []) = PyDict snapshots ->
  truthy (get_or "closest" snapshots PyNone) = false ->
  wayback_lookup url year month h = (Returns (PyNone, PyNone), h1).
Proof.
  intros Hurl Hg Hstatus Hjson Hsnap Hclosest.
  run_lookup Hurl Hg Hstatus. unfold json_of. rewrite Hjson.
  cbn [ret]. rewrite value_get_dict, Hsnap, value_get_dict, Hclosest.
  cbn [ret]. now rewrite Hclosest.
Qed.

(** X9.  On a response that is not an HTTP error and carries JSON, the lookup
    raises exactly when the payload is not of the expected shape, and what it
    raises then is an [AttributeError]; on a payload of the expected shape it
    returns. *)
Theorem lookup_raises_iff_ill_shaped (url : string) (year month : Z)
    (h h1 : history) (r : Response) (payload : pyval) :
  truthy_str url = true ->
  _get (lookup_url url year month) h = (Returns r, h1) ->
  http_error (status_code r) = false ->
  json r = Some payload ->
  (lookup_shape_ok payload = false <->
   exists detail,
     wayback_lookup url year month h = (Raises (AttributeError detail), h1)) /\
  (lookup_shape_ok payload = true <->
   exists res, wayback_lookup url year month h = (Returns res, h1)).
Proof.
  intros Hurl Hg Hstatus Hjson.
  run_lookup Hurl Hg Hstatus. unfold json_of. rewrite Hjson. cbn [ret].
  assert (Hraise : forall (A : Type) (msg : string) (hh : history),
             (false = false <->
              exists detail,
                (@Raises A (AttributeError msg), hh) = (Raises (AttributeError detail), hh)) /\
             (false = true <->
              exists res : A, (Raises (AttributeError msg), hh) = (Returns res, hh))).
  { intros A msg hh. split; split; intros H; try discriminate; eauto.
    destruct H as [res H]. discriminate. }
  assert (Hreturn : forall (A : Type) (a : A) (hh : history),
             (true = false <->
              exists detail, (Returns a, hh) = (Raises (AttributeError detail), hh)) /\
             (true = true <-> exists res : A, (Returns a, hh) = (Returns res, hh))).
  { intros A a hh. split; split; intros H; try discriminate; eauto.
    destruct H as [d H]. discriminate. }
  destruct payload as [ | b | n | s0 | l | items]; try apply Hraise.
  rewrite value_get_dict. cbn [lookup_shape_ok].
  destruct (get_or "archived_snapshots" items (PyDict []))
    as [ | b | n | s0 | l | snapshots]; try apply Hraise.
  rewrite value_get_dict.
  destruct (get_or "closest" snapshots PyNone) as [ | b | n | s0 | l | closest];
    cbn [truthy is_dict].
  - simpl. apply Hreturn.
  - destruct b; simpl; [ apply Hraise | apply Hreturn ].
  - destruct n; simpl; [ apply Hreturn | apply Hraise | apply Hraise ].
  - destruct s0; simpl; [ apply Hreturn | apply Hraise ].
  - destruct l; simpl; [ apply Hreturn | apply Hraise ].
  - destruct closest as [ | kv closest].
    + simpl. apply Hreturn.
    + rewrite value_get_dict. cbn [negb orb]. unfold ret at 1.
      set (available := get_or "available" (kv :: closest) PyNone).
      destruct (truthy available).
      * rewrite !value_get_dict. apply Hreturn.
      * apply Hreturn.
Qed.

(** X10.  [collect_dual] raises exactly when its lookup raises, with the same
    exception and the same history: no fetch is made after a lookup that
    raised, and nothing else in [collect_dual] raises. *)
Theorem collect_dual_raises_iff_lookup_raises (url : string) (year month : Z)
    (h h' : history) (e : exn) :
  collect_dual url year month h = (Raises e, h') <->
  wayback_lookup url year month h = (Raises e, h').
Proof.
  destruct (archive_first_cases url year month out0 h)
    as [(e1 & h1 & Hw & Hc) | [(a & ts & h1 & Hw & _ & Hc)
                              | (a & ts & h1 & res & h2 & Hw & _ & _ & _ & Hc)]].
  - assert (Hrun : collect_dual url year month h = (Raises e1, h1))
      by (unfold collect_dual, bind; now rewrite Hc).
    rewrite Hrun, Hw. split; intros Heq; injection Heq as <- <-; reflexivity.
  - destruct (collect_dual_run _ _ _ _ _ _ Hc) as (? & ? & _ & _ & _ & Hrun).
    rewrite Hrun, Hw. split; discriminate.
  - destruct (collect_dual_run _ _ _ _ _ _ Hc) as (? & ? & _ & _ & _ & Hrun).
    rewrite Hrun, Hw. split; discriminate.
Qed.

(** ** What a fetch returns *)

Lemma _get_returns_answer (url : pyval) (h h1 : history) (r : Response) :
  _get url h = (Returns r, h1) -> server h1 = inr r.
Proof.
  intros Hg. unfold _get in Hg.
  destruct (_get_loop_run url 25 750 3 0 None h) as (evs & Hsnd & _ & Hout).
  rewrite Hg in Hsnd, Hout. simpl in Hsnd, Hout. subst h1. apply Hout.
Qed.

(** The two ways the [try] statement of a fetch can end. *)
Lemma try_fetch_inv (url : pyval) (h h' : history) (body : option string) (code : Z) :
  try_fetch url h = (Returns (body, code), h') ->
  (exists r,
      _get url h = (Returns r, h') /\ code = status_code r /\
      (body = None \/
       (body = Some (text r) /\ status_code r = 200 /\ MIN_GOOD_LEN < len (text r)))) \/
  (exists d, _get url h = (Raises (RequestException d), h') /\ body = None /\ code = 0).
Proof.
  unfold try_fetch, try_except, bind.
  destruct (_get url h) as [[r | [d | d]] h1]; simpl.
  - destruct ((status_code r =? 200) && truthy_str (text r)
              && (MIN_GOOD_LEN <? len (text r))) eqn:Hgood;
      unfold ret; intros Heq; injection Heq as <- <- <-; left; exists r.
    + apply andb_prop in Hgood as [Hgood Hlen].
      apply andb_prop in Hgood as [Hstatus _].
      apply Z.eqb_eq in Hstatus. apply Z.ltb_lt in Hlen. auto 6.
    + auto.
  - unfold ret. intros Heq; injection Heq as <- <- <-. right. now exists d.
  - discriminate.
Qed.

(** X11.  A body returned by [fetch_archived] or [fetch_live] is the text of
    the response the server gave to the last request in the history; that
    response had status 200 and more than [MIN_GOOD_LEN] characters.  A
    non-zero status code returned without a body is the status of that last
    response. *)
Theorem fetched_body_is_last_answer (archive_url : pyval) (url : string)
    (h h' : history) (body : option string) (code : Z) :
  fetch_archived archive_url h = (Returns (body, code), h') \/
  fetch_live url h = (Returns (body, code), h') ->
  (forall b, body = Some b ->
     exists r, server h' = inr r /\ text r = b /\ status_code r = 200 /\
               code = 200 /\ MIN_GOOD_LEN < len b) /\
  (code <> 0 -> exists r, server h' = inr r /\ status_code r = code).
Proof.
  intros Hfetch.
  assert (Htry : (body = None /\ code = 0) \/
                 exists u, try_fetch u h = (Returns (body, code), h')).
  { destruct Hfetch as [Hf | Hf].
    - rewrite fetch_archived_unfold in Hf. destruct (negb (truthy archive_url)).
      + injection Hf as <- <- _. now left.
      + right. now exists archive_url.
    - rewrite fetch_live_unfold in Hf. destruct (negb (truthy_str url)).
      + injection Hf as <- <- _. now left.
      + right. now exists (PyStr url). }
  destruct Htry as [[-> ->] | [u Htry]].
  - split; [ discriminate | congruence ].
  - destruct (try_fetch_inv _ _ _ _ _ Htry)
      as [(r & Hg & -> & Hbody) | (d & _ & -> & ->)].
    + pose proof (_get_returns_answer _ _ _ _ Hg) as Hserver. split.
      * intros b ->. destruct Hbody as [Hnone | (Hsome & Hstatus & Hlen)];
          [ discriminate | ].
        injection Hsome as ->. exists r. auto.
      * intros _. now exists r.
    + split; [ discriminate | congruence ].
Qed.

(** ** More on the returned record *)

Lemma good_outcome_status (res : option string * Z) :
  good_outcome res -> or_empty (fst res) <> "" -> str_or_empty (snd res) = "200".
Proof.
  unfold good_outcome. destruct res as [[b | ] c]; simpl.
  - intros [_ ->] _. reflexivity.
  - congruence.
Qed.

(** What step 1 leaves in the record. *)
Lemma archive_first_fields (url : string) (year month : Z) (h h2 : history)
    (arch : SnapshotResult) :
  archive_first url year month out0 h = (Returns arch, h2) ->
  arch = out0 \/
  (truthy (archive_url arch) = true /\
   (snapshot_ts arch = PyStr "" \/ truthy (snapshot_ts arch) = true) /\
   (archive_html arch <> "" -> status_archive arch = "200") /\
   live_html arch = "" /\ status_live arch = "" /\
   exists h1 evs, h2 = (h1 ++ attempt (archive_url arch) :: evs)%list).
Proof.
  intros Ha.
  destruct (archive_first_cases url year month out0 h)
    as [(e & h1 & _ & Hc) | [(a & ts & h1 & _ & _ & Hc)
                            | (a & ts & h1 & res & h2' & _ & Htruthy & Hf & Hgood & Hc)]];
    rewrite Hc in Ha; [ discriminate | | ]; injection Ha as <- <-.
  - now left.
  - right. cbn [archive_url snapshot_ts archive_html status_archive live_html
                status_live set_archive out0].
    split; [ exact Htruthy | ]. split.
    { unfold or_. destruct (truthy ts) eqn:Hts; auto. }
    split; [ now apply good_outcome_status | ].
    split; [ reflexivity | ]. split; [ reflexivity | ].
    rewrite fetch_archived_unfold, Htruthy in Hf. cbn [negb] in Hf.
    destruct (try_fetch_returns a h1) as (res' & evs & Hf' & _).
    rewrite Hf in Hf'. injection Hf' as _ ->. now exists h1, evs.
Qed.

(** X12.  In a returned record a body comes with the status "200": a
    non-empty [archive_html] has [status_archive] "200" and a non-empty
    [archive_url]; a non-empty [live_html] has [status_live] "200", and the
    input URL was not empty. *)
Theorem body_implies_status_200 (url : string) (year month : Z) (h h' : history)
    (out : SnapshotResult) :
  collect_dual url year month h = (Returns out, h') ->
  (archive_html out <> "" ->
   status_archive out = "200" /\ truthy (archive_url out) = true) /\
  (live_html out <> "" -> status_live out = "200" /\ truthy_str url = true).
Proof.
  intros Hrun.
  destruct (collect_dual_inv _ _ _ _ _ _ Hrun)
    as (arch & h2 & res & Ha & Hl & Hgood & _ & ->).
  set (filled := set_live arch _ _).
  destruct (choose_authoritative_fields filled) as (-> & -> & -> & _ & -> & ->).
  subst filled. cbn [archive_html status_archive archive_url live_html status_live set_live].
  split.
  - intros Hbody.
    destruct (archive_first_fields _ _ _ _ _ _ Ha) as [-> | (Hurl & _ & Hstatus & _)].
    + now contradict Hbody.
    + auto.
  - intros Hbody. split; [ now apply good_outcome_status | ].
    destruct (truthy_str url) eqn:Hurl; [ reflexivity | ].
    rewrite fetch_live_unfold, Hurl in Hl. injection Hl as <- _.
    now contradict Hbody.
Qed.

(** X13.  In a returned record the provenance can be read off the bodies
    alone: it is "archive" exactly when [archive_html] is not empty, "live"
    exactly when [archive_html] is empty and [live_html] is not, and "none"
    exactly when both are empty. *)
Theorem provenance_by_emptiness (url : string) (year month : Z) (h h' : history)
    (out : SnapshotResult) :
  collect_dual url year month h = (Returns out, h') ->
  (chosen_provenance out = "archive" <-> archive_html out <> "") /\
  (chosen_provenance out = "live" <-> archive_html out = "" /\ live_html out <> "") /\
  (chosen_provenance out = "none" <-> archive_html out = "" /\ live_html out = "").
Proof.
  intros Hrun.
  destruct (collect_dual_inv _ _ _ _ _ _ Hrun)
    as (arch & h2 & res & Ha & _ & Hgood & _ & ->).
  set (filled := set_live arch _ _).
  pose proof (archive_first_body _ _ _ _ _ _ Ha) as Harch.
  pose proof (good_outcome_or_empty res Hgood) as Hlive.
  assert (Ea : archive_html filled = archive_html arch) by reflexivity.
  assert (El : live_html filled = or_empty (fst res)) by reflexivity.
  destruct (choose_authoritative_fields filled) as (-> & _ & _ & _ & -> & _).
  rewrite <- Ea in Harch. rewrite <- El in Hlive. clear Ea El.
  assert (Hempty : forall s, s = "" -> len s = 0) by (intros s ->; reflexivity).
  assert (Hlong : forall s, MIN_GOOD_LEN < len s -> s <> "").
  { intros s Hs ->. unfold MIN_GOOD_LEN in Hs. change (len "") with 0 in Hs. lia. }
  unfold MIN_GOOD_LEN in *.
  destruct (choose_authoritative_table filled)
    as [(Hlen & -> & _) | [(Hlen & Hlen' & -> & _) | (Hlen & Hlen' & -> & _)]];
    unfold MIN_GOOD_LEN in *.
  - destruct Harch as [Harch | Harch]; [ apply Hempty in Harch; lia | ].
    apply Hlong in Harch.
    repeat split; try discriminate; try tauto.
  - destruct Harch as [Harch | Harch]; [ | lia ].
    destruct Hlive as [Hlive | Hlive]; [ apply Hempty in Hlive; lia | ].
    apply Hlong in Hlive.
    repeat split; try discriminate; try tauto.
  - destruct Harch as [Harch | Harch]; [ | lia ].
    destruct Hlive as [Hlive | Hlive]; [ | lia ].
    repeat split; try discriminate; try tauto.
Qed.

(** X14.  The archive fields of a returned record are all set or all
    untouched: either [archive_url], [snapshot_ts], [archive_html] and
    [status_archive] all have their initial empty value, or [archive_url] is
    a non-empty value to which a request was sent, and [snapshot_ts] is the
    empty string or a non-empty value. *)
Theorem archive_fields_all_or_nothing (url : string) (year month : Z)
    (h h' : history) (out : SnapshotResult) :
  collect_dual url year month h = (Returns out, h') ->
  (archive_url out = PyStr "" /\ snapshot_ts out = PyStr "" /\
   archive_html out = "" /\ status_archive out = "") \/
  (truthy (archive_url out) = true /\
   (snapshot_ts out = PyStr "" \/ truthy (snapshot_ts out) = true) /\
   In (attempt (archive_url out)) h').
Proof.
  intros Hrun.
  destruct (collect_dual_inv _ _ _ _ _ _ Hrun)
    as (arch & h2 & res & Ha & Hl & _ & _ & ->).
  set (filled := set_live arch _ _).
  destruct (choose_authoritative_fields filled) as (-> & -> & -> & -> & _).
  subst filled. cbn [archive_html status_archive archive_url snapshot_ts set_live].
  destruct (archive_first_fields _ _ _ _ _ _ Ha)
    as [-> | (Hurl & Hts & _ & _ & _ & h1 & evs & ->)].
  - left. repeat split.
  - right. split; [ exact Hurl | ]. split; [ exact Hts | ].
    destruct (fetch_live_events url (h1 ++ attempt (archive_url arch) :: evs))
      as (evs2 & Hsnd & _).
    rewrite Hl in Hsnd. simpl in Hsnd. rewrite Hsnd.
    apply in_or_app. left. apply in_or_app. right. now left.
Qed.

(** ** The timestamp of the lookup *)

Lemma length_append (s t : string) :
  String.length (s ++ t) = (String.length s + String.length t)%nat.
Proof. induction s as [ | c s IH]; simpl; auto. Qed.

Lemma append_assoc (s t u : string) : ((s ++ t) ++ u = s ++ (t ++ u))%string.
Proof. induction s as [ | c s IH]; simpl; [ reflexivity | now rewrite IH ]. Qed.

Lemma all_digits_append (s t : string) :
  all_digits (s ++ t) = all_digits s && all_digits t.
Proof.
  induction s as [ | c s IH]; simpl; [ reflexivity | ].
  now rewrite IH, andb_assoc.
Qed.

Lemma append_inj_length (s1 s2 t1 t2 : string) :
  String.length s1 = String.length s2 ->
  (s1 ++ t1 = s2 ++ t2)%string -> s1 = s2 /\ t1 = t2.
Proof.
  revert s2. induction s1 as [ | c s1 IH]; intros [ | c2 s2]; simpl; try discriminate.
  - auto.
  - intros Hlen Heq. injection Hlen as Hlen. injection Heq as -> Heq.
    destruct (IH s2 Hlen Heq) as [-> ->]. auto.
Qed.

Lemma all_from_spec (check : Z -> bool) (count : nat) :
  forall k n,
    all_from check count k = true -> k <= n < k + Z.of_nat count -> check n = true.
Proof.
  induction count as [ | count IH]; intros k n Hall Hn; [ lia | ].
  simpl in Hall. apply andb_prop in Hall as [Hk Hrest].
  destruct (Z.eq_dec n k) as [-> | Hne]; [ exact Hk | ].
  apply (IH (k + 1)); [ exact Hrest | lia ].
Qed.

(** Zero-padded numbers that fit their width, checked over the whole range. *)
Lemma format_0d_in_range (width : nat) (bound : Z) (n : Z) :
  all_from (fun k => let s := format_0d width k in
                     (String.length s =? width)%nat && all_digits s
                     && (number_of s =? k))
           (Z.to_nat bound) 0 = true ->
  0 <= n < bound ->
  String.length (format_0d width n) = width /\
  all_digits (format_0d width n) = true /\
  number_of (format_0d width n) = n.
Proof.
  intros Hcheck Hn.
  apply (all_from_spec _ _ 0 n) in Hcheck; [ | lia ].
  cbv zeta in Hcheck. apply andb_prop in Hcheck as [Hcheck Hnum].
  apply andb_prop in Hcheck as [Hlen Hdig].
  apply Nat.eqb_eq in Hlen. apply Z.eqb_eq in Hnum. auto.
Qed.

Lemma format_0d_year (year : Z) :
  0 <= year <= 9999 ->
  String.length (format_0d 4 year) = 4%nat /\
  all_digits (format_0d 4 year) = true /\
  number_of (format_0d 4 year) = year.
Proof.
  intros Hy.
  apply (format_0d_in_range 4 10000); [ vm_compute; reflexivity | lia ].
Qed.

Lemma format_0d_month (month : Z) :
  0 <= month <= 99 ->
  String.length (format_0d 2 month) = 2%nat /\
  all_digits (format_0d 2 month) = true /\
  number_of (format_0d 2 month) = month.
Proof.
  intros Hm.
  apply (format_0d_in_range 2 100); [ vm_compute; reflexivity | lia ].
Qed.

(** X15.  For a year from 0 to 9999 and a month from 0 to 99 (so for every
    calendar month) the timestamp has exactly 14 characters, all of them
    digits: six for year and month, then "15120000". *)
Theorem mid_month_timestamp_14_digits (year month : Z) :
  0 <= year <= 9999 ->
  0 <= month <= 99 ->
  len (_mid_month_timestamp year month) = 14 /\
  all_digits (_mid_month_timestamp year month) = true /\
  exists year_month,
    String.length year_month = 6%nat /\
    _mid_month_timestamp year month = year_month ++ "15120000".
Proof.
  intros Hy Hm.
  destruct (format_0d_year year Hy) as (Hly & Hdy & _).
  destruct (format_0d_month month Hm) as (Hlm & Hdm & _).
  unfold _mid_month_timestamp, len.
  repeat split.
  - rewrite !length_append, Hly, Hlm. reflexivity.
  - rewrite !all_digits_append, Hdy, Hdm. reflexivity.
  - exists (format_0d 4 year ++ format_0d 2 month). split.
    + now rewrite length_append, Hly, Hlm.
    + now rewrite append_assoc.
Qed.

(** X16.  On years from 0 to 9999 and months from 0 to 99 the timestamp
    determines the year and the month: two requests with the same timestamp
    are for the same month of the same year. *)
Theorem mid_month_timestamp_injective (year1 month1 year2 month2 : Z) :
  0 <= year1 <= 9999 -> 0 <= month1 <= 99 ->
  0 <= year2 <= 9999 -> 0 <= month2 <= 99 ->
  _mid_month_timestamp year1 month1 = _mid_month_timestamp year2 month2 ->
  year1 = year2 /\ month1 = month2.
Proof.
  intros Hy1 Hm1 Hy2 Hm2 Heq.
  destruct (format_0d_year year1 Hy1) as (Hly1 & _ & Hn1).
  destruct (format_0d_year year2 Hy2) as (Hly2 & _ & Hn2).
  destruct (format_0d_month month1 Hm1) as (Hlm1 & _ & Hk1).
  destruct (format_0d_month month2 Hm2) as (Hlm2 & _ & Hk2).
  unfold _mid_month_timestamp in Heq.
  apply append_inj_length in Heq as [Hyear Hrest]; [ | congruence ].
  apply append_inj_length in Hrest as [Hmonth _]; [ | congruence ].
  split; [ rewrite <- Hn1, <- Hn2 | rewrite <- Hk1, <- Hk2 ]; congruence.
Qed.

(** ** The callers *)

(** X17.  For every record [collect_dual] returns, the two caller scripts
    compute the same [chosen_path]: the extra test of [fetch_sites.py] on the
    body never fails.  The path is the archive path exactly when the
    provenance is "archive", and then the archive body is not empty, so the
    file it names is written; likewise for "live"; it is empty for "none". *)
Theorem chosen_path_agrees (url : string) (year month : Z) (h h' : history)
    (out : SnapshotResult) (archive_path live_path : string) :
  collect_dual url year month h = (Returns out, h') ->
  chosen_path_sites out archive_path live_path
  = chosen_path_all_sites out archive_path live_path /\
  (chosen_provenance out = "archive" ->
   chosen_path_sites out archive_path live_path = archive_path /\
   truthy_str (archive_html out) = true) /\
  (chosen_provenance out = "live" ->
   chosen_path_sites out archive_path live_path = live_path /\
   truthy_str (live_html out) = true) /\
  (chosen_provenance out = "none" ->
   chosen_path_sites out archive_path live_path = "").
Proof.
  intros Hrun.
  destruct (collect_dual_inv _ _ _ _ _ _ Hrun)
    as (arch & h2 & res & Ha & _ & Hgood & _ & ->).
  set (filled := set_live arch _ _).
  assert (Hnonempty : forall s, MIN_GOOD_LEN <= len s -> truthy_str s = true).
  { intros [ | c s] Hs; [ | reflexivity ].
    unfold MIN_GOOD_LEN in Hs. change (len "") with 0 in Hs. lia. }
  unfold chosen_path_sites, chosen_path_all_sites.
  destruct (choose_authoritative_fields filled) as (-> & _ & _ & _ & -> & _).
  destruct (choose_authoritative_table filled)
    as [(Hlen & -> & _) | [(_ & Hlen & -> & _) | (_ & _ & -> & _)]].
  - apply Hnonempty in Hlen. subst filled.
    cbn [archive_html live_html set_live or_empty] in Hlen |- *.
    rewrite Hlen. cbn. rewrite ?Hlen.
    repeat first [ split | intro ]; trivial; discriminate.
  - apply Hnonempty in Hlen. subst filled.
    cbn [archive_html live_html set_live or_empty] in Hlen |- *.
    rewrite Hlen. cbn. rewrite ?Hlen.
    repeat first [ split | intro ]; trivial; discriminate.
  - cbn. repeat first [ split | intro ]; trivial; discriminate.
Qed.

End WaybackFetch.

(** ** Selection across runs *)

(** C3.  The choice is a function of the two comparisons with [MIN_GOOD_LEN]
    and of nothing else: two records that agree on whether the archive body
    and the live body reach [MIN_GOOD_LEN] get the same provenance and reason
    from step 3, whatever their status fields and other fields hold; so do two
    records with the same two lengths; and so do the records of any two runs
    of [collect_dual], on any networks and inputs. *)
Theorem selection_is_deterministic :
  (forall out1 out2 : SnapshotResult,
      (MIN_GOOD_LEN <=? len (archive_html out1)) = (MIN_GOOD_LEN <=? len (archive_html out2)) ->
      (MIN_GOOD_LEN <=? len (live_html out1)) = (MIN_GOOD_LEN <=? len (live_html out2)) ->
      chosen_provenance (choose_authoritative out1)
      = chosen_provenance (choose_authoritative out2) /\
      reason (choose_authoritative out1) = reason (choose_authoritative out2)) /\
  (forall out1 out2 : SnapshotResult,
      len (archive_html out1) = len (archive_html out2) ->
      len (live_html out1) = len (live_html out2) ->
      chosen_provenance (choose_authoritative out1)
      = chosen_provenance (choose_authoritative out2) /\
      reason (choose_authoritative out1) = reason (choose_authoritative out2)) /\
  (forall quote1 quote2 server1 server2 url1 url2 year1 year2 month1 month2
          h1 h2 h1' h2' out1 out2,
      collect_dual quote1 server1 url1 year1 month1 h1 = (Returns out1, h1') ->
      collect_dual quote2 server2 url2 year2 month2 h2 = (Returns out2, h2') ->
      (MIN_GOOD_LEN <=? len (archive_html out1)) = (MIN_GOOD_LEN <=? len (archive_html out2)) ->
      (MIN_GOOD_LEN <=? len (live_html out1)) = (MIN_GOOD_LEN <=? len (live_html out2)) ->
      chosen_provenance out1 = chosen_provenance out2 /\ reason out1 = reason out2).
Proof.
  split; [ exact choose_authoritative_reads_two_bits | ]. split.
  - intros out1 out2 Ea El. apply choose_authoritative_reads_two_bits.
    + now rewrite Ea.
    + now rewrite El.
  - intros quote1 quote2 server1 server2 url1 url2 year1 year2 month1 month2
           h1 h2 h1' h2' out1 out2 Hrun1 Hrun2.
    destruct (collect_dual_inv _ _ _ _ _ _ _ _ Hrun1) as (a1 & ? & r1 & _ & _ & _ & _ & ->).
    destruct (collect_dual_inv _ _ _ _ _ _ _ _ Hrun2) as (a2 & ? & r2 & _ & _ & _ & _ & ->).
    set (filled1 := set_live a1 _ _). set (filled2 := set_live a2 _ _).
    destruct (choose_authoritative_fields filled1) as (-> & _ & _ & _ & -> & _).
    destruct (choose_authoritative_fields filled2) as (-> & _ & _ & _ & -> & _).
    apply choose_authoritative_reads_two_bits.
Qed.

(** ** Runs on concrete networks *)

(** C2.  What the code does at the threshold.  The archive service holds a
    snapshot.  When the snapshot is served with status 200 and exactly 800
    characters and the live page is empty, the archive body is dropped by
    [fetch_archived] and the provenance is "none".  When the snapshot has 799
    characters and the live page exactly 800, the live body is dropped by
    [fetch_live] and the provenance again is "none".  One character more,
    801, and the archive body is kept and chosen. *)
Theorem threshold_body_is_dropped (quote : string -> string) :
  (exists out h',
      collect_dual quote
        (scripted [answer payload_found; served 200 800; served 200 0])
        "example.org" 2019 3 [] = (Returns out, h') /\
      archive_html out = "" /\ status_archive out = "200" /\
      chosen_provenance out = "none" /\ reason out = "both_missing_or_small") /\
  (exists out h',
      collect_dual quote
        (scripted [answer payload_found; served 200 799; served 200 800])
        "example.org" 2019 3 [] = (Returns out, h') /\
      live_html out = "" /\ status_live out = "200" /\
      chosen_provenance out = "none" /\ reason out = "both_missing_or_small") /\
  (exists out h',
      collect_dual quote
        (scripted [answer payload_found; served 200 801; served 200 0])
        "example.org" 2019 3 [] = (Returns out, h') /\
      len (archive_html out) = 801 /\
      chosen_provenance out = "archive" /\ reason out = "archive_ok").
Proof.
  repeat apply conj; eexists; eexists; (split; [ vm_compute; reflexivity | ]);
    repeat split.
Qed.

(** The middle of March 2019, and of December of the year 19. *)
Example mid_month_timestamp_examples :
  _mid_month_timestamp 2019 3 = "20190315120000" /\
  _mid_month_timestamp 19 12 = "00191215120000".
Proof. split; reflexivity. Qed.

(** A payload that is a list makes the lookup raise: [.get] is not caught. *)
Example lookup_on_a_list :
  exists detail h',
    wayback_lookup (fun u => u)
      (scripted [answer (PyList [])]) "example.org" 2019 3 []
    = (Raises (AttributeError detail), h').
Proof. eexists. eexists. vm_compute. reflexivity. Qed.

(** C4.  What the code does when the archive service answers the lookup with
    JSON that is a list.  [.get] on the list raises [AttributeError] inside
    [wayback_lookup], whose [except] clause catches [RequestException] only,
    so [collect_dual] raises after that one request: the live URL, where a
    900-character page was waiting, is never requested and no record is
    returned. *)
Theorem live_fetch_skipped_when_lookup_raises (quote : string -> string) :
  exists detail,
    collect_dual quote (scripted [answer (PyList []); served 200 900])
      "http://example.org" 2019 3 []
    = (Raises (AttributeError detail),
       [attempt (lookup_url quote "http://example.org" 2019 3)]) /\
    requests_in [attempt (lookup_url quote "http://example.org" 2019 3)] = 1%nat /\
    ~ In (attempt (PyStr "http://example.org"))
         [attempt (lookup_url quote "http://example.org" 2019 3)] /\
    fetch_live (scripted [answer (PyList []); served 200 900]) "http://example.org"
      [attempt (lookup_url quote "http://example.org" 2019 3)]
    = (Returns (Some (page 900), 200),
       [attempt (lookup_url quote "http://example.org" 2019 3);
        attempt (PyStr "http://example.org")]).
Proof.
  eexists. split; [ vm_compute; reflexivity | ].
  split; [ reflexivity | ]. split.
  - intros [Heq | []]. unfold attempt, lookup_url in Heq. simpl in Heq.
    discriminate.
  - vm_compute. reflexivity.
Qed.

Lemma collect_dual_provenance_witness :
  exists out h',
    collect_dual (fun u => u)
      (scripted [answer payload_found; served 200 801; served 200 900])
      "example.org" 2019 3 [] = (Returns out, h') /\
    chosen_provenance out = "archive" /\
    ((chosen_provenance out = "archive" <-> MIN_GOOD_LEN <= len (archive_html out)) /\
     (len (archive_html out) < MIN_GOOD_LEN ->
      (chosen_provenance out = "live" <-> MIN_GOOD_LEN <= len (live_html out))) /\
     (len (archive_html out) < MIN_GOOD_LEN -> len (live_html out) < MIN_GOOD_LEN ->
      chosen_provenance out = "none") /\
     ((chosen_provenance out = "archive" /\ reason out = "archive_ok") \/
      (chosen_provenance out = "live" /\ reason out = "archive_missing_or_small_live_ok") \/
      (chosen_provenance out = "none" /\ reason out = "both_missing_or_small"))).
Proof.
  eexists. eexists. split; [ vm_compute; reflexivity | ].
  split; [ reflexivity | ].
  eapply (collect_dual_provenance (fun u => u)
            (scripted [answer payload_found; served 200 801; served 200 900])
            "example.org" 2019 3 []).
  vm_compute. reflexivity.
Defined.

Lemma collect_dual_bodies_witness :
  exists out h',
    collect_dual (fun u => u)
      (scripted [answer payload_found; served 200 801; served 200 500])
      "example.org" 2019 3 [] = (Returns out, h') /\
    len (archive_html out) = 801 /\ live_html out = "" /\
    ((archive_html out = "" \/ MIN_GOOD_LEN < len (archive_html out)) /\
     (live_html out = "" \/ MIN_GOOD_LEN < len (live_html out)) /\
     ~ (1 <= len (archive_html out) <= MIN_GOOD_LEN) /\
     ~ (1 <= len (live_html out) <= MIN_GOOD_LEN)).
Proof.
  eexists. eexists. split; [ vm_compute; reflexivity | ].
  split; [ reflexivity | ]. split; [ reflexivity | ].
  eapply (collect_dual_bodies (fun u => u)
            (scripted [answer payload_found; served 200 801; served 200 500])
            "example.org" 2019 3 []).
  vm_compute. reflexivity.
Defined.

Lemma selection_is_deterministic_witness :
  exists out1 h1' out2 h2',
    collect_dual (fun u => u)
      (scripted [answer payload_not_found; served 200 900])
      "example.org" 2019 3 [] = (Returns out1, h1') /\
    collect_dual (fun u => u)
      (scripted [answer payload_found; served 404 20; served 200 1000])
      "example.com" 2021 11 [] = (Returns out2, h2') /\
    status_archive out1 = "" /\ status_archive out2 = "404" /\
    chosen_provenance out1 = chosen_provenance out2 /\ reason out1 = reason out2.
Proof.
  eexists. eexists. eexists. eexists.
  split; [ vm_compute; reflexivity | ]. split; [ vm_compute; reflexivity | ].
  split; [ reflexivity | ]. split; [ reflexivity | ].
  destruct selection_is_deterministic as (_ & _ & Hruns).
  eapply (Hruns (fun u => u) (fun u => u)
            (scripted [answer payload_not_found; served 200 900])
            (scripted [answer payload_found; served 404 20; served 200 1000])
            "example.org" "example.com" 2019 2021 3 11 [] []).
  - vm_compute. reflexivity.
  - vm_compute. reflexivity.
  - vm_compute. reflexivity.
  - vm_compute. reflexivity.
Defined.

Lemma live_always_attempted_witness :
  exists out h3,
    collect_dual (fun u => u)
      (scripted [answer payload_found; served 200 801; served 200 900])
      "example.org" 2019 3 [] = (Returns out, h3) /\
    chosen_provenance out = "archive" /\
    len (live_html out) = 900 /\ status_live out = "200" /\
    requests_in h3 = 3%nat /\
    exists arch h2 res,
      archive_first (fun u => u)
        (scripted [answer payload_found; served 200 801; served 200 900])
        "example.org" 2019 3 out0 [] = (Returns arch, h2) /\
      fetch_live (scripted [answer payload_found; served 200 801; served 200 900])
        "example.org" h2 = (Returns res, h3) /\
      live_html out = or_empty (fst res) /\
      status_live out = str_or_empty (snd res) /\
      ("example.org" <> "" ->
       exists evs, h3 = (h2 ++ attempt (PyStr "example.org") :: evs)%list).
Proof.
  destruct (live_always_attempted (fun u => u)
              (scripted [answer payload_found; served 200 801; served 200 900])
              "example.org" 2019 3 []) as [Hlive Hreturns].
  eexists. eexists. split; [ vm_compute; reflexivity | ].
  split; [ reflexivity | ]. split; [ reflexivity | ].
  split; [ reflexivity | ]. split; [ reflexivity | ].
  apply Hlive. vm_compute. reflexivity.
Defined.

Lemma no_archive_found_witness :
  exists h1,
    wayback_lookup (fun u => u)
      (scripted [answer payload_not_found; served 200 900])
      "example.org" 2019 3 [] = (Returns (PyNone, PyNone), h1) /\
    requests_in h1 = 1%nat /\
    archive_first (fun u => u)
      (scripted [answer payload_not_found; served 200 900])
      "example.org" 2019 3 out0 [] = (Returns out0, h1) /\
    exists res h2 out,
      fetch_live (scripted [answer payload_not_found; served 200 900])
        "example.org" h1 = (Returns res, h2) /\
      collect_dual (fun u => u)
        (scripted [answer payload_not_found; served 200 900])
        "example.org" 2019 3 [] = (Returns out, h2) /\
      archive_html out = "" /\ status_archive out = "" /\
      archive_url out = PyStr "" /\ snapshot_ts out = PyStr "" /\
      live_html out = or_empty (fst res) /\
      (chosen_provenance out = "live" <-> MIN_GOOD_LEN <= len (live_html out)) /\
      (chosen_provenance out = "none" <-> len (live_html out) < MIN_GOOD_LEN) /\
      chosen_provenance out <> "archive".
Proof.
  eexists. split; [ vm_compute; reflexivity | ]. split; [ reflexivity | ].
  apply (no_archive_found (fun u => u)
           (scripted [answer payload_not_found; served 200 900])
           "example.org" 2019 3 []).
  vm_compute. reflexivity.
Defined.

Lemma unreachable_exhausted (url : pyval) (h : history) :
  exhausted unreachable url h.
Proof.
  repeat split; exists "connection refused"; reflexivity.
Defined.

Lemma retry_exhaustion_witness :
  fetch_live unreachable "example.org" []
  = (Returns (None, 0), retries (PyStr "example.org")) /\
  wayback_lookup (fun u => u) unreachable "example.org" 2019 3 []
  = (Returns (PyNone, PyNone), retries (lookup_url (fun u => u) "example.org" 2019 3)) /\
  collect_dual (fun u => u) unreachable "example.org" 2019 3 []
  = (Returns (set_choice out0 "none" "both_missing_or_small"),
     (retries (lookup_url (fun u => u) "example.org" 2019 3)
      ++ retries (PyStr "example.org"))%list).
Proof.
  destruct (retry_exhaustion (fun u => u) unreachable "example.org" 2019 3 []
              eq_refl) as (_ & _ & Hfetch & Hlookup).
  destruct (Hfetch (unreachable_exhausted _ _)) as [Hlive _].
  destruct (Hlookup (unreachable_exhausted _ _)) as (Hw & _ & Hrun).
  split; [ exact Hlive | ]. split; [ exact Hw | ].
  exact (Hrun (unreachable_exhausted _ _)).
Defined.

Lemma non_200_not_retried_witness :
  _get (scripted [served 404 9]) (PyStr "example.org") []
  = (Returns (mkResponse 404 (page 9) None), [attempt (PyStr "example.org")]) /\
  fetch_archived (scripted [served 404 9]) (PyStr "example.org") []
  = (Returns (None, 404), [attempt (PyStr "example.org")]) /\
  fetch_live (scripted [served 404 9]) "example.org" []
  = (Returns (None, 404), [attempt (PyStr "example.org")]).
Proof.
  destruct (non_200_not_retried (scripted [served 404 9]) (PyStr "example.org") []
              (mkResponse 404 (page 9) None))
    as (_ & Hget & Harchived & Hlive).
  - reflexivity.
  - reflexivity.
  - simpl. lia.
  - split; [ exact Hget | ]. split; [ exact Harchived | ].
    apply Hlive. reflexivity.
Defined.

(** A transport failure is retried, the 503 that follows is not. *)
Example timeout_then_503 :
  fetch_live (scripted [inl "timed out"; served 503 0; served 200 900]) "example.org" []
  = (Returns (None, 503),
     [attempt (PyStr "example.org"); EvSleep 750; attempt (PyStr "example.org")]).
Proof. reflexivity. Qed.

Lemma status_zero_is_empty_witness :
  (exists out h',
      collect_dual (fun u => u) (scripted [answer payload_not_found])
        "example.org" 2019 3 [] = (Returns out, h') /\
      status_archive out = "" /\ status_archive out = status_archive out0) /\
  (exists out h',
      collect_dual (fun u => u) (scripted [answer payload_found])
        "example.org" 2019 3 [] = (Returns out, h') /\
      status_archive out = "" /\ status_archive out = status_archive out0) /\
  (exists out h',
      collect_dual (fun u => u) (scripted [answer payload_found; served 503 0])
        "example.org" 2019 3 [] = (Returns out, h') /\
      status_live out = "" /\ status_live out = status_live out0) /\
  (exists out h',
      collect_dual (fun u => u)
        (scripted [answer payload_found; served 404 20; served 503 0])
        "example.org" 2019 3 [] = (Returns out, h') /\
      status_live out = "503" /\
      exists arch h2 res,
        archive_first (fun u => u)
          (scripted [answer payload_found; served 404 20; served 503 0])
          "example.org" 2019 3 out0 [] = (Returns arch, h2) /\
        fetch_live (scripted [answer payload_found; served 404 20; served 503 0])
          "example.org" h2 = (Returns res, h') /\
        status_live out = str_or_empty (snd res)) /\
  (exists out h',
      collect_dual (fun u => u)
        (scripted [answer payload_found; served 404 20; served 503 0])
        "example.org" 2019 3 [] = (Returns out, h') /\
      status_archive out = "404").
Proof.
  split; [ | split; [ | split; [ | split ] ] ].
  - destruct (status_zero_is_empty (fun u => u) (scripted [answer payload_not_found]))
      as (_ & _ & Harchive & _).
    eapply (Harchive "example.org" 2019 3 []).
    + vm_compute. reflexivity.
    + left. reflexivity.
  - destruct (status_zero_is_empty (fun u => u) (scripted [answer payload_found]))
      as (_ & _ & Harchive & _).
    eapply (Harchive "example.org" 2019 3 []).
    + vm_compute. reflexivity.
    + right. repeat split; exists "connection refused"; reflexivity.
  - destruct (status_zero_is_empty (fun u => u)
                (scripted [answer payload_found; served 503 0]))
      as (_ & _ & _ & _ & Hlive & _).
    eapply (Hlive "example.org" 2019 3 []).
    + vm_compute. reflexivity.
    + reflexivity.
    + repeat split; exists "connection refused"; reflexivity.
  - destruct (status_zero_is_empty (fun u => u)
                (scripted [answer payload_found; served 404 20; served 503 0]))
      as (_ & _ & _ & _ & _ & Hstored & _).
    eexists. eexists. split; [ vm_compute; reflexivity | ].
    split; [ reflexivity | ].
    apply Hstored. vm_compute. reflexivity.
  - destruct (status_zero_is_empty (fun u => u)
                (scripted [answer payload_found; served 404 20; served 503 0]))
      as (_ & _ & _ & _ & _ & _ & Hstored).
    destruct (Hstored "example.org" 2019 3 []
                [attempt (lookup_url (fun u => u) "example.org" 2019 3)]
                [attempt (lookup_url (fun u => u) "example.org" 2019 3);
                 attempt (PyStr "http://web.archive.org/web/20190314/http://example.org/")]
                (PyStr "http://web.archive.org/web/20190314/http://example.org/")
                (PyStr "20190314000000") (None, 404))
      as (out & h' & Hrun & Hstatus).
    + vm_compute. reflexivity.
    + reflexivity.
    + vm_compute. reflexivity.
    + exists out, h'. split; [ exact Hrun | ]. rewrite Hstatus. reflexivity.
Defined.

(** ** Runs for the further properties *)

Lemma get_request_budget_witness :
  exists evs,
    snd (_get unreachable (PyStr "example.org") []) = evs /\
    requests_in evs = 3%nat.
Proof.
  destruct (get_request_budget unreachable (PyStr "example.org") [])
    as (evs & Hsnd & _ & _ & Hraise & _).
  exists evs. split; [ exact Hsnd | ].
  apply (Hraise (RequestException "connection refused")). reflexivity.
Defined.

Lemma get_backoff_schedule_witness :
  exists evs,
    snd (_get unreachable (PyStr "example.org") []) = evs /\
    evs = retries (PyStr "example.org") /\ slept evs = 5250.
Proof.
  destruct (get_backoff_schedule unreachable (PyStr "example.org") [])
    as (evs & Hsnd & Hraise & _ & _).
  exists evs. split; [ exact Hsnd | ].
  apply (Hraise (RequestException "connection refused")). reflexivity.
Defined.

Lemma get_last_answer_witness :
  exists r h',
    _get (scripted [inl "timed out"; served 503 0]) (PyStr "example.org") []
    = (Returns r, h') /\
    status_code r = 503 /\
    scripted [inl "timed out"; served 503 0] h' = inr r /\
    exists p, h' = (([] ++ p) ++ [attempt (PyStr "example.org")])%list.
Proof.
  destruct (get_last_answer (scripted [inl "timed out"; served 503 0])
              (PyStr "example.org") []) as [Hreturns _].
  eexists. eexists. split; [ vm_compute; reflexivity | ].
  split; [ reflexivity | ].
  apply Hreturns. vm_compute. reflexivity.
Defined.

Lemma collect_dual_requests_witness :
  exists out h',
    collect_dual (fun u => u)
      (scripted [answer payload_found; served 200 801; served 200 900])
      "example.org" 2019 3 [] = (Returns out, h') /\
    exists evs,
      h' = ([] ++ evs)%list /\
      Forall (request_to [lookup_url (fun u => u) "example.org" 2019 3;
                          archive_url out; PyStr "example.org"] 25) evs.
Proof.
  destruct (collect_dual_requests (fun u => u)
              (scripted [answer payload_found; served 200 801; served 200 900])
              "example.org" 2019 3 []) as [Hreturns _].
  eexists. eexists. split; [ vm_compute; reflexivity | ].
  apply Hreturns. vm_compute. reflexivity.
Defined.

Lemma lookup_degrades_on_bad_response_witness :
  wayback_lookup (fun u => u) (scripted [served 503 0]) "example.org" 2019 3 []
  = (Returns (PyNone, PyNone), [attempt (lookup_url (fun u => u) "example.org" 2019 3)]).
Proof.
  apply (lookup_degrades_on_bad_response (fun u => u) (scripted [served 503 0])
           "example.org" 2019 3 [] _ (mkResponse 503 (page 0) None)).
  - reflexivity.
  - vm_compute. reflexivity.
  - left. reflexivity.
Defined.

Lemma lookup_reads_closest_witness :
  exists res h1,
    wayback_lookup (fun u => u) (scripted [answer payload_found])
      "example.org" 2019 3 [] = (Returns res, h1) /\
    res = (PyStr "http://web.archive.org/web/20190314/http://example.org/",
           PyStr "20190314000000").
Proof.
  eexists. eexists. split.
  - eapply (lookup_reads_closest (fun u => u) (scripted [answer payload_found])
              "example.org" 2019 3 []).
    + reflexivity.
    + vm_compute. reflexivity.
    + reflexivity.
    + reflexivity.
    + reflexivity.
    + reflexivity.
  - reflexivity.
Defined.

Lemma lookup_without_snapshot_witness :
  exists h1,
    wayback_lookup (fun u => u) (scripted [answer payload_not_found])
      "example.org" 2019 3 [] = (Returns (PyNone, PyNone), h1).
Proof.
  eexists.
  eapply (lookup_without_snapshot (fun u => u) (scripted [answer payload_not_found])
            "example.org" 2019 3 []).
  - reflexivity.
  - vm_compute. reflexivity.
  - reflexivity.
  - reflexivity.
  - reflexivity.
  - reflexivity.
Defined.

Lemma lookup_raises_iff_ill_shaped_witness :
  lookup_shape_ok (PyList []) = false /\
  exists detail h1,
    wayback_lookup (fun u => u) (scripted [answer (PyList [])])
      "example.org" 2019 3 [] = (Raises (AttributeError detail), h1).
Proof.
  split; [ reflexivity | ].
  destruct (lookup_raises_iff_ill_shaped (fun u => u) (scripted [answer (PyList [])])
              "example.org" 2019 3 []
              [attempt (lookup_url (fun u => u) "example.org" 2019 3)]
              (mkResponse 200 "" (Some (PyList []))) (PyList []))
    as [[Hraises _] _].
  - reflexivity.
  - vm_compute. reflexivity.
  - reflexivity.
  - reflexivity.
  - destruct (Hraises eq_refl) as [detail Hrun]. eauto.
Defined.

Lemma collect_dual_raises_iff_lookup_raises_witness :
  exists e h',
    collect_dual (fun u => u) (scripted [answer (PyList [])])
      "example.org" 2019 3 [] = (Raises e, h') /\ requests_in h' = 1%nat.
Proof.
  eexists. eexists. split.
  - apply (collect_dual_raises_iff_lookup_raises (fun u => u)
             (scripted [answer (PyList [])]) "example.org" 2019 3 []).
    vm_compute. reflexivity.
  - reflexivity.
Defined.

Lemma fetched_body_is_last_answer_witness :
  exists r,
    scripted [inl "timed out"; served 200 900]
      [attempt (PyStr "example.org"); EvSleep 750; attempt (PyStr "example.org")]
    = inr r /\
    text r = page 900 /\ status_code r = 200 /\ 200 = 200 /\
    MIN_GOOD_LEN < len (page 900).
Proof.
  destruct (fetched_body_is_last_answer (scripted [inl "timed out"; served 200 900])
              PyNone "example.org" []
              [attempt (PyStr "example.org"); EvSleep 750; attempt (PyStr "example.org")]
              (Some (page 900)) 200) as [Hbody _].
  - right. vm_compute. reflexivity.
  - apply Hbody. reflexivity.
Defined.

Lemma body_implies_status_200_witness :
  exists out h',
    collect_dual (fun u => u)
      (scripted [answer payload_found; served 200 801; served 200 900])
      "example.org" 2019 3 [] = (Returns out, h') /\
    archive_html out <> "" /\ live_html out <> "" /\
    (archive_html out <> "" ->
     status_archive out = "200" /\ truthy (archive_url out) = true) /\
    (live_html out <> "" -> status_live out = "200" /\ truthy_str "example.org" = true).
Proof.
  eexists. eexists. split; [ vm_compute; reflexivity | ].
  split; [ discriminate | ]. split; [ discriminate | ].
  eapply (body_implies_status_200 (fun u => u)
            (scripted [answer payload_found; served 200 801; served 200 900])
            "example.org" 2019 3 []).
  vm_compute. reflexivity.
Defined.

Lemma provenance_by_emptiness_witness :
  exists out h',
    collect_dual (fun u => u)
      (scripted [answer payload_found; served 200 600; served 200 900])
      "example.org" 2019 3 [] = (Returns out, h') /\
    chosen_provenance out = "live" /\
    (chosen_provenance out = "archive" <-> archive_html out <> "") /\
    (chosen_provenance out = "live" <-> archive_html out = "" /\ live_html out <> "") /\
    (chosen_provenance out = "none" <-> archive_html out = "" /\ live_html out = "").
Proof.
  eexists. eexists. split; [ vm_compute; reflexivity | ].
  split; [ reflexivity | ].
  eapply (provenance_by_emptiness (fun u => u)
            (scripted [answer payload_found; served 200 600; served 200 900])
            "example.org" 2019 3 []).
  vm_compute. reflexivity.
Defined.

Lemma archive_fields_all_or_nothing_witness :
  exists out h',
    collect_dual (fun u => u)
      (scripted [answer payload_found; served 404 20; served 200 900])
      "example.org" 2019 3 [] = (Returns out, h') /\
    status_archive out = "404" /\
    ((archive_url out = PyStr "" /\ snapshot_ts out = PyStr "" /\
      archive_html out = "" /\ status_archive out = "") \/
     (truthy (archive_url out) = true /\
      (snapshot_ts out = PyStr "" \/ truthy (snapshot_ts out) = true) /\
      In (attempt (archive_url out)) h')).
Proof.
  eexists. eexists. split; [ vm_compute; reflexivity | ].
  split; [ reflexivity | ].
  eapply (archive_fields_all_or_nothing (fun u => u)
            (scripted [answer payload_found; served 404 20; served 200 900])
            "example.org" 2019 3 []).
  vm_compute. reflexivity.
Defined.

Lemma mid_month_timestamp_14_digits_witness :
  len (_mid_month_timestamp 2019 3) = 14 /\
  all_digits (_mid_month_timestamp 2019 3) = true /\
  exists year_month,
    String.length year_month = 6%nat /\
    _mid_month_timestamp 2019 3 = year_month ++ "15120000".
Proof.
  apply (mid_month_timestamp_14_digits 2019 3); lia.
Defined.

Lemma mid_month_timestamp_injective_witness :
  _mid_month_timestamp 2019 3 = _mid_month_timestamp 2019 3 /\
  2019 = 2019 /\ 3 = 3.
Proof.
  split; [ reflexivity | ].
  apply (mid_month_timestamp_injective 2019 3 2019 3); try lia. reflexivity.
Defined.

Lemma chosen_path_agrees_witness :
  exists out h',
    collect_dual (fun u => u)
      (scripted [answer payload_found; served 200 801; served 200 900])
      "example.org" 2019 3 [] = (Returns out, h') /\
    chosen_path_sites out "html/1_2019_03_archive.html" "html/1_2019_03_live.html"
    = "html/1_2019_03_archive.html" /\
    chosen_path_sites out "html/1_2019_03_archive.html" "html/1_2019_03_live.html"
    = chosen_path_all_sites out "html/1_2019_03_archive.html" "html/1_2019_03_live.html".
Proof.
  eexists. eexists. split; [ vm_compute; reflexivity | ].
  split; [ reflexivity | ].
  eapply proj1.
  eapply (chosen_path_agrees (fun u => u)
            (scripted [answer payload_found; served 200 801; served 200 900])
            "example.org" 2019 3 []).
  vm_compute. reflexivity.
Defined.
